(** * Hand-cricket gesture pipeline: a shallow embedding of
      [MediaPipeService] (lib/mediapipe-service.ts) and of the gesture gate of
      [HandGestureDetector] (components/HandGestureDetector.tsx), followed by
      the game context (lib/game-context.tsx) and the gesture handler of the
      game page (pages/Game.tsx) that the gate feeds.

    JavaScript numbers holding landmark coordinates are IEEE-754 binary64
    values, modelled by Rocq's primitive floats; timestamps returned by
    [Date.now()] are integral milliseconds, modelled by [Z]; the
    [gestureConfidence] object is a finite map from gesture codes to
    streaks. *)

From Stdlib Require Import ZArith QArith Floats Bool List Lia.
From stdpp Require Import base option list gmap fin_maps.
Import ListNotations.

#[local] Set Warnings "-inexact-float".
#[local] Open Scope Z_scope.

(** ** Landmarks *)

Record Landmark : Type := mkLandmark { lx : float; ly : float; lz : float }.

(** The five per-frame flags that [detectImprovedGesture] computes as local
    constants. *)
Record FingerFlags : Type := mkFlags {
  isThumbUp : bool;
  isIndexExtended : bool;
  isMiddleExtended : bool;
  isRingExtended : bool;
  isPinkyExtended : bool
}.

Inductive Finger : Type := Thumb | Index | Middle | Ring | Pinky.

Definition flagOf (f : Finger) (fl : FingerFlags) : bool :=
  match f with
  | Thumb => isThumbUp fl
  | Index => isIndexExtended fl
  | Middle => isMiddleExtended fl
  | Ring => isRingExtended fl
  | Pinky => isPinkyExtended fl
  end.

Module Geometry.

(** [isFingerExtended(tip, pip, mcp, wrist, isThumb = false)].  The [mcp]
    and [wrist] arguments are accepted and never read, as in the source. *)
Definition isFingerExtended
    (tipLandmark pipLandmark mcpLandmark wristLandmark : Landmark)
    (isThumb : bool) : bool :=
  if isThumb then
    let thumbUp := (ly tipLandmark <? ly pipLandmark - 0.05)%float in
    let notCurled := (abs (lz tipLandmark - lz pipLandmark) <? 0.1)%float in
    thumbUp && notCurled
  else
    let isHigherThanPIP := (ly tipLandmark <? ly pipLandmark - 0.07)%float in
    let isForward := (abs (lz tipLandmark - lz pipLandmark) <? 0.07)%float in
    isHigherThanPIP && isForward.

(** The landmark reads and the five [isFingerExtended] calls of
    [detectImprovedGesture] (source lines 300-324).  A read past the end of
    the array yields [undefined] in JavaScript and the following property
    access throws; [None] stands for that [TypeError]. *)
Definition fingerFlags (landmarks : list Landmark) : option FingerFlags :=
  wrist ← landmarks !! 0%nat;
  thumbTip ← landmarks !! 4%nat;
  indexTip ← landmarks !! 8%nat;
  middleTip ← landmarks !! 12%nat;
  ringTip ← landmarks !! 16%nat;
  pinkyTip ← landmarks !! 20%nat;
  indexMCP ← landmarks !! 5%nat;
  middleMCP ← landmarks !! 9%nat;
  ringMCP ← landmarks !! 13%nat;
  pinkyMCP ← landmarks !! 17%nat;
  indexPIP ← landmarks !! 6%nat;
  middlePIP ← landmarks !! 10%nat;
  ringPIP ← landmarks !! 14%nat;
  pinkyPIP ← landmarks !! 18%nat;
  thumb3 ← landmarks !! 3%nat;
  thumb2 ← landmarks !! 2%nat;
  Some {|
    isThumbUp := isFingerExtended thumbTip thumb3 thumb2 wrist true;
    isIndexExtended := isFingerExtended indexTip indexPIP indexMCP wrist false;
    isMiddleExtended := isFingerExtended middleTip middlePIP middleMCP wrist false;
    isRingExtended := isFingerExtended ringTip ringPIP ringMCP wrist false;
    isPinkyExtended := isFingerExtended pinkyTip pinkyPIP pinkyMCP wrist false
  |}.

End Geometry.

Module Classifier.

(** [extendedFingerCount]: the sum of four ternaries (thumb excluded). *)
Definition extendedFingerCount (fl : FingerFlags) : Z :=
  (if isIndexExtended fl then 1 else 0) +
  (if isMiddleExtended fl then 1 else 0) +
  (if isRingExtended fl then 1 else 0) +
  (if isPinkyExtended fl then 1 else 0).

(** The "GESTURE DETECTION LOGIC" of [detectImprovedGesture]
    (source lines 333-351): three guarded returns and a default. *)
Definition gestureOfFlags (fl : FingerFlags) : Z :=
  let extendedFingerCount := extendedFingerCount fl in
  if isThumbUp fl && (extendedFingerCount =? 0) then 6
  else if extendedFingerCount >=? 4 then 5
  else if (extendedFingerCount >? 0) && (extendedFingerCount <=? 4)
       then extendedFingerCount
  else 0.

(** [detectImprovedGesture(landmarks)].  The argument is [None] when the
    caller passes [null]/[undefined]; the result is [None] when the body
    throws. *)
Definition detectImprovedGesture (landmarks : option (list Landmark)) : option Z :=
  match landmarks with
  | None => Some 0
  | Some l =>
      if (Z.of_nat (length l) <? 21) then Some 0
      else fl ← Geometry.fingerFlags l; Some (gestureOfFlags fl)
  end.

(** The flags a call of [detectImprovedGesture] computes: none at all on
    the early return, the five constants otherwise. *)
Definition computedFlags (landmarks : option (list Landmark)) : option FingerFlags :=
  match landmarks with
  | None => None
  | Some l => if (Z.of_nat (length l) <? 21) then None else Geometry.fingerFlags l
  end.

(** A finger is flagged extended by a call when the call computes its flag
    and the flag is [true]. *)
Definition flaggedExtended (f : Finger) (landmarks : option (list Landmark)) : bool :=
  match computedFlags landmarks with
  | Some fl => flagOf f fl
  | None => false
  end.

End Classifier.

(** ** The service object and the browser's timers *)

Module Service.

(** The deferred callbacks the service registers with [setTimeout] and
    [setInterval]. *)
Inductive Callback : Type :=
  | CooldownReset        (* processGestureWithConfidence, 1000 ms *)
  | NoLandmarksRestart   (* onResults, 5000 ms *)
  | StuckCheck           (* setupStuckDetection, every 2000 ms *)
  | CalibrationEnd       (* startCalibration, 5000 ms *)
  | InitializeCamera.    (* () => this.initializeCamera(), 500 or 1000 ms *)

#[global] Instance Callback_eq_dec : EqDecision Callback.
Proof. solve_decision. Defined.

Record Timer : Type := mkTimer {
  tid : nat;
  due : Z;
  period : option Z;     (* [Some p] for an interval timer *)
  action : Callback
}.

(** What the service does to its collaborators. *)
Inductive Effect : Type :=
  | GestureEvent (gesture : Z)   (* this.gestureCallback(gesture) *)
  | HandsSend                    (* this.hands.send({ image }) *)
  | CameraStart                  (* new Camera(...).start() *)
  | CameraStop                   (* this.camera.stop() *)
  | StuckRestart                 (* "Hand tracking appears to be stuck, restarting camera..." *)
  | NoLandmarksRestartSignal.    (* "No landmarks detected for an extended period, ..." *)

#[global] Instance Effect_eq_dec : EqDecision Effect.
Proof. solve_decision. Defined.

(** The fields of [MediaPipeService], followed by the pending timers of the
    page.  Object-valued fields are kept as "is it set" booleans.
    [calibrationData] is written by [collectCalibrationData] and read
    nowhere, so it is left out. *)
Record State : Type := mkState {
  hands : bool;
  camera : bool;
  canvasReady : bool;            (* canvasCtx && canvasElement *)
  videoElement : bool;
  gestureCallback : bool;
  isCalibrating : bool;
  isReady : bool;
  lastGestureDetected : Z;
  gestureConfidence : gmap Z Z;
  cameraStartAttempts : Z;
  lastFrameProcessed : Z;
  stuckDetectionTimer : option nat;
  lastLandmarkTime : Z;
  noLandmarksTimeout : option nat;
  timers : list Timer;
  nextTimer : nat
}.

Definition gestureThreshold : Z := 3.
Definition maxCameraAttempts : Z := 5.
Definition processingFrameRate : Z := 15.

(** A freshly constructed service ([isCalibrating] starts out [true]). *)
Definition fresh : State := {|
  hands := false; camera := false; canvasReady := false; videoElement := false;
  gestureCallback := false; isCalibrating := true; isReady := false;
  lastGestureDetected := 0; gestureConfidence := ∅;
  cameraStartAttempts := 0; lastFrameProcessed := 0;
  stuckDetectionTimer := None; lastLandmarkTime := 0; noLandmarksTimeout := None;
  timers := []; nextTimer := 1
|}.

Definition set_camera (v : bool) (s : State) : State :=
  mkState (hands s) v (canvasReady s) (videoElement s) (gestureCallback s)
    (isCalibrating s) (isReady s) (lastGestureDetected s) (gestureConfidence s)
    (cameraStartAttempts s) (lastFrameProcessed s) (stuckDetectionTimer s)
    (lastLandmarkTime s) (noLandmarksTimeout s) (timers s) (nextTimer s).

Definition set_isCalibrating (v : bool) (s : State) : State :=
  mkState (hands s) (camera s) (canvasReady s) (videoElement s) (gestureCallback s)
    v (isReady s) (lastGestureDetected s) (gestureConfidence s)
    (cameraStartAttempts s) (lastFrameProcessed s) (stuckDetectionTimer s)
    (lastLandmarkTime s) (noLandmarksTimeout s) (timers s) (nextTimer s).

Definition set_lastGestureDetected (v : Z) (s : State) : State :=
  mkState (hands s) (camera s) (canvasReady s) (videoElement s) (gestureCallback s)
    (isCalibrating s) (isReady s) v (gestureConfidence s)
    (cameraStartAttempts s) (lastFrameProcessed s) (stuckDetectionTimer s)
    (lastLandmarkTime s) (noLandmarksTimeout s) (timers s) (nextTimer s).

Definition set_gestureConfidence (v : gmap Z Z) (s : State) : State :=
  mkState (hands s) (camera s) (canvasReady s) (videoElement s) (gestureCallback s)
    (isCalibrating s) (isReady s) (lastGestureDetected s) v
    (cameraStartAttempts s) (lastFrameProcessed s) (stuckDetectionTimer s)
    (lastLandmarkTime s) (noLandmarksTimeout s) (timers s) (nextTimer s).

Definition set_cameraStartAttempts (v : Z) (s : State) : State :=
  mkState (hands s) (camera s) (canvasReady s) (videoElement s) (gestureCallback s)
    (isCalibrating s) (isReady s) (lastGestureDetected s) (gestureConfidence s)
    v (lastFrameProcessed s) (stuckDetectionTimer s)
    (lastLandmarkTime s) (noLandmarksTimeout s) (timers s) (nextTimer s).

Definition set_lastFrameProcessed (v : Z) (s : State) : State :=
  mkState (hands s) (camera s) (canvasReady s) (videoElement s) (gestureCallback s)
    (isCalibrating s) (isReady s) (lastGestureDetected s) (gestureConfidence s)
    (cameraStartAttempts s) v (stuckDetectionTimer s)
    (lastLandmarkTime s) (noLandmarksTimeout s) (timers s) (nextTimer s).

Definition set_stuckDetectionTimer (v : option nat) (s : State) : State :=
  mkState (hands s) (camera s) (canvasReady s) (videoElement s) (gestureCallback s)
    (isCalibrating s) (isReady s) (lastGestureDetected s) (gestureConfidence s)
    (cameraStartAttempts s) (lastFrameProcessed s) v
    (lastLandmarkTime s) (noLandmarksTimeout s) (timers s) (nextTimer s).

Definition set_lastLandmarkTime (v : Z) (s : State) : State :=
  mkState (hands s) (camera s) (canvasReady s) (videoElement s) (gestureCallback s)
    (isCalibrating s) (isReady s) (lastGestureDetected s) (gestureConfidence s)
    (cameraStartAttempts s) (lastFrameProcessed s) (stuckDetectionTimer s)
    v (noLandmarksTimeout s) (timers s) (nextTimer s).

Definition set_noLandmarksTimeout (v : option nat) (s : State) : State :=
  mkState (hands s) (camera s) (canvasReady s) (videoElement s) (gestureCallback s)
    (isCalibrating s) (isReady s) (lastGestureDetected s) (gestureConfidence s)
    (cameraStartAttempts s) (lastFrameProcessed s) (stuckDetectionTimer s)
    (lastLandmarkTime s) v (timers s) (nextTimer s).

Definition set_timers (v : list Timer) (s : State) : State :=
  mkState (hands s) (camera s) (canvasReady s) (videoElement s) (gestureCallback s)
    (isCalibrating s) (isReady s) (lastGestureDetected s) (gestureConfidence s)
    (cameraStartAttempts s) (lastFrameProcessed s) (stuckDetectionTimer s)
    (lastLandmarkTime s) (noLandmarksTimeout s) v (nextTimer s).

Definition set_nextTimer (v : nat) (s : State) : State :=
  mkState (hands s) (camera s) (canvasReady s) (videoElement s) (gestureCallback s)
    (isCalibrating s) (isReady s) (lastGestureDetected s) (gestureConfidence s)
    (cameraStartAttempts s) (lastFrameProcessed s) (stuckDetectionTimer s)
    (lastLandmarkTime s) (noLandmarksTimeout s) (timers s) v.

(** *** Browser timers *)

(** [setTimeout(cb, delay)] / [setInterval(cb, delay)] at time [now]: a
    fresh positive handle is returned and the timer is queued. *)
Definition schedule (now delay : Z) (repeat : bool) (cb : Callback) (s : State)
  : nat * State :=
  let id := nextTimer s in
  let t := mkTimer id (now + delay) (if repeat then Some delay else None) cb in
  (id, set_nextTimer (S id) (set_timers (timers s ++ [t]) s)).

Definition setTimeout (now delay : Z) (cb : Callback) (s : State) : nat * State :=
  schedule now delay false cb s.

Definition setInterval (now delay : Z) (cb : Callback) (s : State) : nat * State :=
  schedule now delay true cb s.

(** [clearTimeout(id)] and [clearInterval(id)]. *)
Definition clearTimeout (id : nat) (s : State) : State :=
  set_timers (filter (λ t, tid t ≠ id) (timers s)) s.

(** *** Methods *)

(** The [onFrame] handler installed by [initializeCamera].  [Date.now()]
    is integral, and the double nearest to 1000/15 lies strictly between
    66 and 67 (see [frame_interval_double]), so the comparison
    [now - lastFrameProcessed > 1000 / processingFrameRate] is decided
    exactly over the rationals. *)
Definition onFrame (now : Z) (s : State) : State * list Effect :=
  if Qle_bool (inject_Z (now - lastFrameProcessed s))
       (1000 # Z.to_pos processingFrameRate)
  then (s, [])
  else
    let s := set_lastFrameProcessed now s in
    (s, if videoElement s && hands s then [HandsSend] else []).

(** [initializeCamera()], without the asynchronous failure of
    [camera.start()], which is [cameraStartError] below. *)
Definition initializeCamera (s : State) : State * list Effect :=
  let s := set_cameraStartAttempts (cameraStartAttempts s + 1) s in
  if videoElement s then (set_camera true s, [CameraStart]) else (s, []).

(** The [catch] handler of [this.camera.start()]. *)
Definition cameraStartError (now : Z) (s : State) : State :=
  if cameraStartAttempts s <? maxCameraAttempts
  then snd (setTimeout now 1000 InitializeCamera s)
  else s.

(** The body of the interval callback of [setupStuckDetection]. *)
Definition stuckCheck (now : Z) (s : State) : State * list Effect :=
  if (now - lastLandmarkTime s >? 3000) && negb (lastLandmarkTime s =? 0) then
    let stop := if camera s then [CameraStop] else [] in
    let s := match noLandmarksTimeout s with
             | Some id => set_noLandmarksTimeout None (clearTimeout id s)
             | None => s
             end in
    (snd (setTimeout now 500 InitializeCamera s), StuckRestart :: stop)
  else (s, []).

Definition setupStuckDetection (now : Z) (s : State) : State :=
  let '(id, s) := setInterval now 2000 StuckCheck s in
  set_stuckDetectionTimer (Some id) s.

(** The [setTimeout] callback of [startCalibration]. *)
Definition calibrationEnd (s : State) : State := set_isCalibrating false s.

Definition startCalibration (now : Z) (s : State) : State :=
  let s := set_isCalibrating true s in
  let s := set_gestureConfidence ∅ s in
  let s := set_lastGestureDetected 0 s in
  snd (setTimeout now 5000 CalibrationEnd s).

Definition stopCamera (s : State) : State * list Effect :=
  let stop := if camera s then [CameraStop] else [] in
  let s := match stuckDetectionTimer s with
           | Some id => set_stuckDetectionTimer None (clearTimeout id s)
           | None => s
           end in
  let s := match noLandmarksTimeout s with
           | Some id => set_noLandmarksTimeout None (clearTimeout id s)
           | None => s
           end in
  (s, stop).

(** The cool-down callback registered by [processGestureWithConfidence]. *)
Definition cooldownReset (s : State) : State :=
  set_gestureConfidence ∅ (set_lastGestureDetected 0 s).

(** The [for (const key in this.gestureConfidence)] loop: every tracked
    key other than [gesture] is overwritten with 0. *)
Definition resetOthers (gesture : Z) (conf : gmap Z Z) : gmap Z Z :=
  map_imap (λ key v, Some (if bool_decide (key = gesture) then v else 0)) conf.

(** [processGestureWithConfidence(gesture)]. *)
Definition processGestureWithConfidence (now gesture : Z) (s : State)
  : State * list Effect :=
  let conf := resetOthers gesture (gestureConfidence s) in
  let conf := <[gesture := default 0 (conf !! gesture) + 1]> conf in
  let s := set_gestureConfidence conf s in
  if (default 0 (gestureConfidence s !! gesture) >=? gestureThreshold)
     && negb (lastGestureDetected s =? gesture)
  then
    let s := set_lastGestureDetected gesture s in
    let ev := if gestureCallback s then [GestureEvent gesture] else [] in
    (snd (setTimeout now 1000 CooldownReset s), ev)
  else (s, []).

(** The 5-second callback registered by [onResults]. *)
Definition noLandmarksRestart (now : Z) (s : State) : State * list Effect :=
  let stop := if camera s then [CameraStop] else [] in
  (snd (setTimeout now 500 InitializeCamera s), NoLandmarksRestartSignal :: stop).

(** One iteration of [for (const landmarks of results.multiHandLandmarks)];
    the drawing calls touch the canvas only.  [collectCalibrationData]
    writes [calibrationData] alone. *)
Definition onHand (now : Z) (landmarks : list Landmark) (s : State)
  : option (State * list Effect) :=
  if isCalibrating s then Some (s, [])
  else if gestureCallback s then
    gesture ← Classifier.detectImprovedGesture (Some landmarks);
    if gesture >? 0 then Some (processGestureWithConfidence now gesture s)
    else Some (s, [])
  else Some (s, []).

Fixpoint onHands (now : Z) (hs : list (list Landmark)) (s : State)
  : option (State * list Effect) :=
  match hs with
  | [] => Some (s, [])
  | landmarks :: hs =>
      '(s, e1) ← onHand now landmarks s;
      '(s, e2) ← onHands now hs s;
      Some (s, e1 ++ e2)
  end.

(** [results.multiHandLandmarks && results.multiHandLandmarks.length > 0]. *)
Definition handsDetected (multiHandLandmarks : option (list (list Landmark))) : bool :=
  match multiHandLandmarks with
  | Some (_ :: _) => true
  | _ => false
  end.

(** [onResults(results)], where [results.multiHandLandmarks] is [None]
    when the field is absent. *)
Definition onResults (now : Z) (multiHandLandmarks : option (list (list Landmark)))
    (s : State) : option (State * list Effect) :=
  let s := set_lastLandmarkTime now s in
  let s := match noLandmarksTimeout s with
           | Some id => set_noLandmarksTimeout None (clearTimeout id s)
           | None => s
           end in
  if negb (canvasReady s) then Some (s, [])
  else if handsDetected multiHandLandmarks then
    onHands now (default [] multiHandLandmarks) s
  else
    match noLandmarksTimeout s with
    | None =>
        let '(id, s) := setTimeout now 5000 NoLandmarksRestart s in
        Some (set_noLandmarksTimeout (Some id) s, [])
    | Some _ => Some (s, [])
    end.

(** [initialize(videoElement, canvasElement, onGestureDetected)] once the
    MediaPipe globals are loaded; [ctx2d] tells whether
    [canvasElement.getContext('2d')] returned a context. *)
Definition initialize (now : Z) (ctx2d : bool) (s : State) : State * list Effect :=
  let s := mkState true (camera s) ctx2d true true
    (isCalibrating s) (isReady s) (lastGestureDetected s) (gestureConfidence s)
    (cameraStartAttempts s) (lastFrameProcessed s) (stuckDetectionTimer s)
    (lastLandmarkTime s) (noLandmarksTimeout s) (timers s) (nextTimer s) in
  let '(s, e) := initializeCamera s in
  let s := setupStuckDetection now s in
  (mkState (hands s) (camera s) (canvasReady s) (videoElement s) (gestureCallback s)
    (isCalibrating s) true (lastGestureDetected s) (gestureConfidence s)
    (cameraStartAttempts s) (lastFrameProcessed s) (stuckDetectionTimer s)
    (lastLandmarkTime s) (noLandmarksTimeout s) (timers s) (nextTimer s), e).

(** *** Abbreviations for parts of the methods above *)

(** The streak of [gesture] after the call. *)
Definition nextStreak (gesture : Z) (s : State) : Z :=
  default 0 (gestureConfidence s !! gesture) + 1.

(** The firing test of [processGestureWithConfidence]. *)
Definition fires (gesture : Z) (s : State) : bool :=
  (nextStreak gesture s >=? gestureThreshold)
  && negb (lastGestureDetected s =? gesture).

(** The start of [onResults]: the clock is stamped and a pending
    no-landmarks timeout is cleared, whatever the results hold. *)
Definition stamped (now : Z) (s : State) : State :=
  match noLandmarksTimeout s with
  | Some id => set_noLandmarksTimeout None (clearTimeout id (set_lastLandmarkTime now s))
  | None => set_lastLandmarkTime now s
  end.

End Service.

(** ** The page's event loop

    Time advances millisecond by millisecond; a timer runs in the
    millisecond it falls due, before any input stamped with that
    millisecond, and timers due together run in the order they were
    queued.  Every delay the service uses is positive, so a callback never
    queues a timer for the millisecond being processed. *)

Module Loop.
Import Service.

Definition runCallback (now : Z) (cb : Callback) (s : State) : State * list Effect :=
  match cb with
  | CooldownReset => (cooldownReset s, [])
  | NoLandmarksRestart => noLandmarksRestart now s
  | StuckCheck => stuckCheck now s
  | CalibrationEnd => (calibrationEnd s, [])
  | InitializeCamera => initializeCamera s
  end.

Definition pending (id : nat) (s : State) : bool :=
  existsb (λ t, Nat.eqb (tid t) id) (timers s).

(** Run one due timer, unless an earlier callback of the same millisecond
    cleared it.  A timeout leaves the queue; an interval is queued again
    one period later under the same handle. *)
Definition fire (now : Z) (t : Timer) (s : State) : State * list Effect :=
  if pending (tid t) s then
    let s := clearTimeout (tid t) s in
    let s := match period t with
             | Some p => set_timers (timers s ++ [mkTimer (tid t) (due t + p) (period t) (action t)]) s
             | None => s
             end in
    runCallback now (action t) s
  else (s, []).

Fixpoint fireAll (now : Z) (ts : list Timer) (s : State) : State * list Effect :=
  match ts with
  | [] => (s, [])
  | t :: ts =>
      let '(s, e1) := fire now t s in
      let '(s, e2) := fireAll now ts s in
      (s, e1 ++ e2)
  end.

Definition dueAt (now : Z) (s : State) : list Timer :=
  filter (λ t, due t = now) (timers s).

Definition stamp (now : Z) (es : list Effect) : list (Z * Effect) :=
  map (pair now) es.

(** Let [n] milliseconds pass after [clock]. *)
Fixpoint advance (n : nat) (clock : Z) (s : State) : State * list (Z * Effect) :=
  match n with
  | O => (s, [])
  | S n =>
      let now := clock + 1 in
      let '(s, e) := fireAll now (dueAt now s) s in
      let '(s, tr) := advance n now s in
      (s, stamp now e ++ tr)
  end.

(** What reaches the service from outside. *)
Inductive Input : Type :=
  | Initialize (ctx2d : bool)
  | StartCalibration
  | StopCamera
  | CameraFrame                                       (* the camera's onFrame *)
  | CameraStartError                                  (* camera.start() rejected *)
  | Results (multiHandLandmarks : option (list (list Landmark))).

Definition handle (now : Z) (i : Input) (s : State) : option (State * list Effect) :=
  match i with
  | Initialize ctx2d => Some (initialize now ctx2d s)
  | StartCalibration => Some (startCalibration now s, [])
  | StopCamera => Some (stopCamera s)
  | CameraFrame => Some (onFrame now s)
  | CameraStartError => Some (cameraStartError now s, [])
  | Results r => onResults now r s
  end.

(** Run a script of time-stamped inputs from time [clock].  [None] when
    the script goes back in time or a handler throws. *)
Fixpoint run (script : list (Z * Input)) (clock : Z) (s : State)
  : option (State * list (Z * Effect)) :=
  match script with
  | [] => Some (s, [])
  | (now, i) :: script =>
      if now <? clock then None
      else
        let '(s, tr1) := advance (Z.to_nat (now - clock)) clock s in
        '(s, e) ← handle now i s;
        '(s, tr2) ← run script now s;
        Some (s, tr1 ++ stamp now e ++ tr2)
  end.

(** The gesture events of a trace, with their times. *)
Definition gestureEvents (tr : list (Z * Effect)) : list (Z * Z) :=
  omap (λ te, match te.2 with GestureEvent g => Some (te.1, g) | _ => None end) tr.

(** The restart-capture signals of either watchdog timer. *)
Definition isRestart (e : Effect) : bool :=
  match e with
  | StuckRestart | NoLandmarksRestartSignal => true
  | _ => false
  end.

Definition restarts (tr : list (Z * Effect)) : list (Z * Effect) :=
  List.filter (λ te, isRestart te.2) tr.

(** The camera delivers frames at the times [arrivals]; the result lists
    the times at which a frame was sent on to the pose model. *)
Fixpoint onFrames (arrivals : list Z) (s : State) : State * list Z :=
  match arrivals with
  | [] => (s, [])
  | now :: arrivals =>
      let '(s, e) := onFrame now s in
      let '(s, sent) := onFrames arrivals s in
      (s, (if e is [] then [] else [now]) ++ sent)
  end.

(** The script never goes back in time. *)
Fixpoint inOrder (clock : Z) (script : list (Z * Input)) : Prop :=
  match script with
  | [] => True
  | (now, _) :: script => clock ≤ now ∧ inOrder now script
  end.

End Loop.

(** ** The gesture gate of [HandGestureDetector] *)

Module Detector.

(** The two refs read and written by [throttledGestureDetection], and the
    [isProcessing] state it sets. *)
Record Gate : Type := mkGate {
  lastGestureTimeRef : Z;
  calibrationLockRef : bool;
  isProcessing : bool
}.

(** A freshly mounted component. *)
Definition mounted : Gate := mkGate 0 true false.

(** A pending [setTimeout(() => onGestureDetected(gesture), 200)]; the
    same callback resets [isProcessing], which only drives the display. *)
Record Delivery : Type := mkDelivery { deliverAt : Z; delivered : Z }.

(** [throttledGestureDetection(gesture)] called at time [now] with the
    [disabled] prop its closure captured. *)
Definition throttledGestureDetection (disabled : bool) (now gesture : Z) (g : Gate)
  : Gate * list Delivery :=
  if disabled then (g, [])
  else if calibrationLockRef g then (g, [])
  else if (now - lastGestureTimeRef g >? 500) && (gesture >? 0) then
    (mkGate now (calibrationLockRef g) true, [mkDelivery (now + 200) gesture])
  else (g, []).

(** What happens to the gate over time: the service reports a gesture
    (at a time, with the [disabled] prop in force), or the component's
    [startCalibration] sets or releases the calibration lock. *)
Inductive Event : Type :=
  | Report (now gesture : Z) (disabled : bool)
  | SetLock (locked : bool).

Definition step (e : Event) (g : Gate) : Gate * list Delivery :=
  match e with
  | Report now gesture disabled => throttledGestureDetection disabled now gesture g
  | SetLock b => (mkGate (lastGestureTimeRef g) b (isProcessing g), [])
  end.

Fixpoint feed (es : list Event) (g : Gate) : Gate * list Delivery :=
  match es with
  | [] => (g, [])
  | e :: es =>
      let '(g, d1) := step e g in
      let '(g, d2) := feed es g in
      (g, d1 ++ d2)
  end.

(** The gate lets a report through when the component is enabled, the
    calibration lock is released, more than 500 ms have passed since the
    report it last let through, and the code is positive. *)
Definition accepts (disabled : bool) (now gesture : Z) (g : Gate) : bool :=
  negb disabled && negb (calibrationLockRef g)
  && (now - lastGestureTimeRef g >? 500) && (gesture >? 0).

End Detector.

(** ** Concrete hands used by the examples below *)

Module Hands.

(** Every joint at height 0.5 and depth 0; a raised fingertip at height
    0.2, a lowered one at 0.6. *)
Definition joint : Landmark := mkLandmark 0.5 0.5 0.
Definition tip (raised : bool) : Landmark :=
  mkLandmark 0.5 (if raised then 0.2 else 0.6) 0.

Definition pose (thumb index middle ring pinky : bool) : list Landmark :=
  [ joint; joint; joint; joint; tip thumb;
    joint; joint; joint; tip index;
    joint; joint; joint; tip middle;
    joint; joint; joint; tip ring;
    joint; joint; joint; tip pinky ].

Definition oneFinger : list Landmark := pose false true false false false.
Definition twoFingers : list Landmark := pose false true true false false.
Definition fist : list Landmark := pose false false false false false.

(** Ten landmarks only. *)
Definition truncated : list Landmark := take 10 oneFinger.

End Hands.

(** ** Scenarios *)

Module Scenario.
Import Service Loop.

(** The page is loaded at [T0]: the component initialises the service and
    calibration starts at once, so detection is live from [T0 + 5000]. *)
Definition T0 : Z := 1000000.

Definition boot : list (Z * Input) :=
  [(T0, Initialize true); (T0, StartCalibration)].

Definition oneFingerFrame : Input := Results (Some [Hands.oneFinger]).
Definition twoFingerFrame : Input := Results (Some [Hands.twoFingers]).
Definition emptyFrame : Input := Results (Some []).

(** [n] frames [i], 67 ms apart, the first at [start + 67]. *)
Definition every67 (start : Z) (n : nat) (i : Input) : list (Z * Input) :=
  map (λ k, (start + 67 * Z.of_nat k, i)) (seq 1 n).

(** One finger for three frames, then two fingers, held for a second. *)
Definition changeThenHold : list (Z * Input) :=
  boot ++ every67 (T0 + 5033) 3 oneFingerFrame
       ++ every67 (T0 + 5234) 17 twoFingerFrame.

(** No hand in view: a result without landmarks every 100 ms for 8 s. *)
Definition nobodyThere : list (Z * Input) :=
  (T0, Initialize true)
    :: map (λ k, (T0 + 100 * Z.of_nat k, emptyFrame)) (seq 1 80).

(** A hand is seen once, half a second in; then the hand is gone and a
    result without landmarks arrives every second for nine seconds. *)
Definition handThenNothing : list (Z * Input) :=
  (T0, Initialize true) :: (T0 + 500, oneFingerFrame)
    :: map (λ k, (T0 + 500 + 1000 * Z.of_nat k, emptyFrame)) (seq 1 9).

(** [n] camera frames, [step] ms apart, the first at [start]. *)
Definition burst (start step : Z) (n : Z) : list Z :=
  map (λ k, start + step * Z.of_nat k) (seq 0 (Z.to_nat n)).

(** A live service: initialised, calibration over, one finger seen in the
    two frames before. *)
Definition primed : State := {|
  hands := true; camera := true; canvasReady := true; videoElement := true;
  gestureCallback := true; isCalibrating := false; isReady := true;
  lastGestureDetected := 0; gestureConfidence := {[ 1 := 2 ]};
  cameraStartAttempts := 1; lastFrameProcessed := T0 + 5167;
  stuckDetectionTimer := Some 1%nat; lastLandmarkTime := T0 + 5167;
  noLandmarksTimeout := None;
  timers := [mkTimer 1 (T0 + 6000) (Some 2000) StuckCheck]; nextTimer := 3
|}.

End Scenario.

(** ** Vocabulary of the statements *)

Section Vocabulary.
Import Geometry Classifier Service Loop Detector.

(** The anatomical indices the analyzer compares, finger by finger, and
    its two margins. *)
Definition tipIndex (f : Finger) : nat :=
  match f with Thumb => 4 | Index => 8 | Middle => 12 | Ring => 16 | Pinky => 20 end%nat.

Definition pipIndex (f : Finger) : nat :=
  match f with Thumb => 3 | Index => 6 | Middle => 10 | Ring => 14 | Pinky => 18 end%nat.

Definition yMargin (f : Finger) : float :=
  match f with Thumb => 0.05 | _ => 0.07 end.

Definition zMargin (f : Finger) : float :=
  match f with Thumb => 0.1 | _ => 0.07 end.

(** The spec's criterion: the tip is above the joint by more than the
    y-margin, and within the z-margin of it in depth (binary64
    arithmetic, as the code computes it). *)
Definition raisedBeyond (f : Finger) (tip pip : Landmark) : Prop :=
  (ly tip <? ly pip - yMargin f)%float = true ∧
  (abs (lz tip - lz pip) <? zMargin f)%float = true.

(** The spec's count of extended non-thumb fingers. *)
Definition nonThumbCount (fl : FingerFlags) : nat :=
  length (List.filter id
    [isIndexExtended fl; isMiddleExtended fl; isRingExtended fl; isPinkyExtended fl]).

(** The spec's decision list, first match winning. *)
Definition firstMatch (thumbUp : bool) (k : nat) : Z :=
  if thumbUp && Nat.eqb k 0 then 6
  else if Nat.leb 4 k then 5
  else if Nat.leb 1 k && Nat.leb k 4 then Z.of_nat k
  else 0.

(** Every hand of the frame classifies as 0. *)
Definition zeroFrame (r : option (list (list Landmark))) : Prop :=
  ∀ l, l ∈ default [] r → detectImprovedGesture (Some l) = Some 0.

(** Each element is at least [d] after the one before it, the first at
    least [d] after [lo]. *)
Fixpoint spaced (d lo : Z) (l : list Z) : Prop :=
  match l with
  | [] => True
  | x :: l => lo + d ≤ x ∧ spaced d x l
  end.

(** The half-open window of length [w] that opens at [T]. *)
Definition inWindow (T w x : Z) : bool := (T <=? x) && (x <? T + w).

(** Every pending no-landmarks timeout is the one the service holds the
    handle of. *)
Definition noLandmarksTracked (s : State) : Prop :=
  ∀ t, t ∈ timers s → action t = NoLandmarksRestart →
       noLandmarksTimeout s = Some (tid t).

(** [g] is the last-fired code and no cool-down reset is due before
    [bound]. *)
Definition coolingDown (g bound : Z) (s : State) : Prop :=
  lastGestureDetected s = g ∧
  ∀ t, t ∈ timers s → action t = CooldownReset → bound ≤ due t.

(** The effects hold no gesture event. *)
Definition quiet (es : list Effect) : Prop :=
  ∀ e, e ∈ es → ∀ g, e ≠ GestureEvent g.

(** The pose [g] is held: every hand of every result classifies as [g]
    or as nothing, and nothing but camera frames and results reaches the
    service. *)
Definition holds (g : Z) (i : Input) : Prop :=
  match i with
  | CameraFrame => True
  | Results r =>
      ∀ l, l ∈ default [] r →
        detectImprovedGesture (Some l) = Some g ∨ detectImprovedGesture (Some l) = Some 0
  | _ => False
  end.

End Vocabulary.

(** ** The game context (lib/game-context.tsx) and the game page's gesture handler

    A handler of a React component reads the state of the render it was
    created in and queues state updates; React applies the queue in order
    once the handler returns.  A handler is therefore a function from the
    rendered context to the list of updates it queues, and to the timeouts
    it requests.  [isPlayerOut] and [isGameOver] live in lib/game-utils,
    which is not part of the sources at hand: they are parameters. *)

Module Game.

Inductive GameState : Type := Toss | Batting | Bowling | GameOver.

(** ['You won the toss!'] and ['AI won the toss!']. *)
Inductive TossResult : Type := YouWon | AIWon.

Inductive Coin : Type := Heads | Tails.

#[global] Instance GameState_eq_dec : EqDecision GameState.
Proof. solve_decision. Defined.

#[global] Instance Coin_eq_dec : EqDecision Coin.
Proof. solve_decision. Defined.

Record Context : Type := mkContext {
  gameState : GameState;
  playerScore : Z;
  aiScore : Z;
  innings : Z;
  target : option Z;
  playerChoice : option Z;
  aiChoice : option Z;
  userBatting : bool;
  isOut : bool;
  tossResult : option TossResult;
  ballsPlayed : Z
}.

Definition initialState : Context :=
  mkContext Toss 0 0 1 None None None false false None 0.

(** One call of a state setter; [BumpBallsPlayed] is
    [setBallsPlayed(prev => prev + 1)]. *)
Inductive Update : Type :=
  | SetGameState (v : GameState)
  | SetPlayerScore (v : Z)
  | SetAiScore (v : Z)
  | SetInnings (v : Z)
  | SetTarget (v : option Z)
  | SetPlayerChoice (v : option Z)
  | SetAiChoice (v : option Z)
  | SetUserBatting (v : bool)
  | SetIsOut (v : bool)
  | SetTossResult (v : option TossResult)
  | SetBallsPlayed (v : Z)
  | BumpBallsPlayed.

Definition applyUpdate (c : Context) (u : Update) : Context :=
  match u with
  | SetGameState v =>
      mkContext v (playerScore c) (aiScore c) (innings c) (target c) (playerChoice c)
        (aiChoice c) (userBatting c) (isOut c) (tossResult c) (ballsPlayed c)
  | SetPlayerScore v =>
      mkContext (gameState c) v (aiScore c) (innings c) (target c) (playerChoice c)
        (aiChoice c) (userBatting c) (isOut c) (tossResult c) (ballsPlayed c)
  | SetAiScore v =>
      mkContext (gameState c) (playerScore c) v (innings c) (target c) (playerChoice c)
        (aiChoice c) (userBatting c) (isOut c) (tossResult c) (ballsPlayed c)
  | SetInnings v =>
      mkContext (gameState c) (playerScore c) (aiScore c) v (target c) (playerChoice c)
        (aiChoice c) (userBatting c) (isOut c) (tossResult c) (ballsPlayed c)
  | SetTarget v =>
      mkContext (gameState c) (playerScore c) (aiScore c) (innings c) v (playerChoice c)
        (aiChoice c) (userBatting c) (isOut c) (tossResult c) (ballsPlayed c)
  | SetPlayerChoice v =>
      mkContext (gameState c) (playerScore c) (aiScore c) (innings c) (target c) v
        (aiChoice c) (userBatting c) (isOut c) (tossResult c) (ballsPlayed c)
  | SetAiChoice v =>
      mkContext (gameState c) (playerScore c) (aiScore c) (innings c) (target c)
        (playerChoice c) v (userBatting c) (isOut c) (tossResult c) (ballsPlayed c)
  | SetUserBatting v =>
      mkContext (gameState c) (playerScore c) (aiScore c) (innings c) (target c)
        (playerChoice c) (aiChoice c) v (isOut c) (tossResult c) (ballsPlayed c)
  | SetIsOut v =>
      mkContext (gameState c) (playerScore c) (aiScore c) (innings c) (target c)
        (playerChoice c) (aiChoice c) (userBatting c) v (tossResult c) (ballsPlayed c)
  | SetTossResult v =>
      mkContext (gameState c) (playerScore c) (aiScore c) (innings c) (target c)
        (playerChoice c) (aiChoice c) (userBatting c) (isOut c) v (ballsPlayed c)
  | SetBallsPlayed v =>
      mkContext (gameState c) (playerScore c) (aiScore c) (innings c) (target c)
        (playerChoice c) (aiChoice c) (userBatting c) (isOut c) (tossResult c) v
  | BumpBallsPlayed =>
      mkContext (gameState c) (playerScore c) (aiScore c) (innings c) (target c)
        (playerChoice c) (aiChoice c) (userBatting c) (isOut c) (tossResult c)
        (ballsPlayed c + 1)
  end.

(** React works the queue off in order. *)
Definition commit (us : list Update) (c : Context) : Context :=
  fold_left applyUpdate us c.

(** A requested [setTimeout(() => { ... }, delay)] whose body is a run of
    setters. *)
Record Deferred : Type := mkDeferred { delay : Z; body : list Update }.

(** The body of the timeouts the handlers request: the displayed choices
    are cleared and, after a scoring ball, the out flag as well. *)
Definition clearChoices (andOut : bool) : list Update :=
  [SetPlayerChoice None; SetAiChoice None] ++ (if andOut then [SetIsOut false] else []).

(** What a handler did: it threw before queueing anything, or it queued
    updates and requested timeouts. *)
Inductive Outcome : Type :=
  | Threw
  | Queued (us : list Update) (ds : list Deferred).

Section WithGameUtils.

Variable isPlayerOut : Z → Z → bool.
Variable isGameOver : Z → Z → option Z → bool.

(** [handleBattingPlayerOut()]. *)
Definition handleBattingPlayerOut (c : Context) : list Update * list Deferred :=
  match target c with
  | None =>
      ([SetTarget (Some (playerScore c + 1)); SetUserBatting false; SetIsOut false;
        SetGameState Bowling; SetInnings 2; SetBallsPlayed 0],
       [mkDeferred 3000 (clearChoices false)])
  | Some _ => ([SetGameState GameOver], [])
  end.

(** [handleBowlingPlayerOut()]. *)
Definition handleBowlingPlayerOut (c : Context) : list Update * list Deferred :=
  match target c with
  | None =>
      ([SetTarget (Some (aiScore c + 1)); SetUserBatting true; SetIsOut false;
        SetGameState Batting; SetInnings 2; SetBallsPlayed 0],
       [mkDeferred 3000 (clearChoices false)])
  | Some _ => ([SetGameState GameOver], [])
  end.

(** [handlePlayerOut()]. *)
Definition handlePlayerOut (c : Context) : list Update * list Deferred :=
  let '(us, ds) :=
    if userBatting c then handleBattingPlayerOut c else handleBowlingPlayerOut c in
  (SetIsOut true :: us, ds).

(** [updateScores(userMove, aiMove)]. *)
Definition updateScores (c : Context) (userMove aiMove : Z)
  : list Update * list Deferred :=
  let clear := mkDeferred 2500 (clearChoices true) in
  if userBatting c then
    let newScore := playerScore c + userMove in
    if isGameOver (innings c) newScore (target c)
    then ([SetPlayerScore newScore; SetGameState GameOver], [])
    else ([SetPlayerScore newScore], [clear])
  else
    let newScore := aiScore c + aiMove in
    if isGameOver (innings c) newScore (target c)
    then ([SetAiScore newScore; SetGameState GameOver], [])
    else ([SetAiScore newScore], [clear]).

(** [makeChoice(userMove, aiMoveOverride?)]; [generated] is what
    [generateAiMove()] returns when it is called. *)
Definition makeChoice (c : Context) (userMove : Z) (aiMoveOverride : option Z)
    (generated : Z) : Outcome :=
  if (userMove <? 1) || (userMove >? 6) then Threw
  else
    let aiMove := default generated aiMoveOverride in
    let first := [SetPlayerChoice (Some userMove); SetAiChoice (Some aiMove);
                  BumpBallsPlayed] in
    let '(us, ds) :=
      if isPlayerOut userMove aiMove then handlePlayerOut c
      else updateScores c userMove aiMove in
    Queued (first ++ us) ds.

(** [handleGestureDetected(gesture)] of the game page (pages/Game.tsx),
    with the page's [countdown] state. *)
Definition handleGestureDetected (countdown : option Z) (c : Context)
    (gesture generated : Z) : Outcome :=
  if bool_decide (countdown = None)
     && (bool_decide (gameState c = Batting) || bool_decide (gameState c = Bowling))
  then
    if (gesture >=? 1) && (gesture <=? 6)
    then makeChoice c gesture None generated
    else Queued [] []
  else Queued [] [].

(** The context once a call [makeChoice(userMove, aiMove)] has been worked
    off. *)
Definition afterChoice (c : Context) (userMove aiMove : Z) : Context :=
  match makeChoice c userMove (Some aiMove) 0 with
  | Threw => c
  | Queued us _ => commit us c
  end.

End WithGameUtils.

(** [startGame(battingFirst)]. *)
Definition startGame (battingFirst : bool) : list Update :=
  [SetUserBatting battingFirst;
   SetGameState (if battingFirst then Batting else Bowling);
   SetBallsPlayed 0; SetPlayerChoice None; SetAiChoice None; SetIsOut false].

(** [resetGame()]. *)
Definition resetGame : list Update :=
  [SetGameState Toss; SetPlayerScore 0; SetAiScore 0; SetInnings 1; SetTarget None;
   SetUserBatting false; SetPlayerChoice None; SetAiChoice None; SetIsOut false;
   SetTossResult None; SetBallsPlayed 0].

(** [chooseToss(choice)]; [high1] and [high2] tell whether the first and
    the second [Math.random()] came out above 0.5. *)
Definition chooseToss (choice : Coin) (high1 high2 : bool) : list Update :=
  let tossOutcome := if high1 then Heads else Tails in
  let userWonToss := bool_decide (choice = tossOutcome) in
  SetTossResult (Some (if userWonToss then YouWon else AIWon))
    :: (if userWonToss then [] else [SetUserBatting (negb high2)]).

(** [chooseBatOrBowl(choice)]. *)
Definition chooseBatOrBowl (bat : bool) : list Update :=
  [SetUserBatting bat; SetGameState (if bat then Batting else Bowling)].

(** What can happen to the context between two renders. *)
Inductive Action : Type :=
  | Gesture (countdown : option Z) (gesture generated : Z)
  | MakeChoice (userMove : Z) (aiMoveOverride : option Z) (generated : Z)
  | StartGame (battingFirst : bool)
  | ResetGame
  | ChooseToss (choice : Coin) (high1 high2 : bool)
  | ChooseBatOrBowl (bat : bool)
  | Timeout (andOut : bool).

Definition settle (o : Outcome) (c : Context) : Context :=
  match o with
  | Threw => c
  | Queued us _ => commit us c
  end.

Definition act (isPlayerOut : Z → Z → bool) (isGameOver : Z → Z → option Z → bool)
    (c : Context) (a : Action) : Context :=
  match a with
  | Gesture countdown gesture generated =>
      settle (handleGestureDetected isPlayerOut isGameOver countdown c gesture generated) c
  | MakeChoice userMove aiMoveOverride generated =>
      settle (makeChoice isPlayerOut isGameOver c userMove aiMoveOverride generated) c
  | StartGame b => commit (startGame b) c
  | ResetGame => commit resetGame c
  | ChooseToss choice h1 h2 => commit (chooseToss choice h1 h2) c
  | ChooseBatOrBowl bat => commit (chooseBatOrBowl bat) c
  | Timeout andOut => commit (clearChoices andOut) c
  end.

Definition play (isPlayerOut : Z → Z → bool) (isGameOver : Z → Z → option Z → bool)
    (actions : list Action) (c : Context) : Context :=
  fold_left (act isPlayerOut isGameOver) actions c.

(** The second innings is on exactly when a target is set. *)
Definition inningsMatchTarget (c : Context) : Prop :=
  match target c with
  | None => innings c = 1
  | Some _ => innings c = 2
  end.

(** Two functions to try the handlers with, standing in for the helpers
    of lib/game-utils: a wicket falls when both sides show the same number,
    and a chase is won once the target is reached in the second innings. *)
Definition sameNumber (userMove aiMove : Z) : bool := userMove =? aiMove.

Definition chaseWon (innings newScore : Z) (target : option Z) : bool :=
  (innings =? 2) && match target with Some t => newScore >=? t | None => false end.

(** A game in which the user bats first and has made 7 runs, and the
    same game in its second innings, the AI chasing 8 and standing at 5. *)
Definition userBats7 : Context :=
  mkContext Batting 7 0 1 None None None true false (Some YouWon) 4.

Definition aiChases8 : Context :=
  mkContext Bowling 7 5 2 (Some 8) None None false false (Some YouWon) 3.

End Game.

(** ** Further vocabulary *)

Section MoreVocabulary.
Import Geometry Classifier Service Loop Detector.

(** The landmarks [detectImprovedGesture] compares: the five tips and the
    joint each is measured against. *)
Definition keyIndices : list nat := [3; 4; 6; 8; 10; 12; 14; 16; 18; 20]%nat.

(** Two landmark lists agree in height and depth at index [i]. *)
Definition agreeAt (l l' : list Landmark) (i : nat) : Prop :=
  ly <$> l !! i = ly <$> l' !! i ∧ lz <$> l !! i = lz <$> l' !! i.

(** The codes the service can hand to its callback. *)
Definition emittable (e : Effect) : Prop :=
  match e with
  | GestureEvent g => g ∈ [1; 2; 3; 5; 6]
  | _ => True
  end.

(** Streaks are never negative, at most one code has a streak going, and a
    streak of three or more belongs to the last-fired code. *)
Definition debouncerOk (s : State) : Prop :=
  (∀ k v, gestureConfidence s !! k = Some v → 0 ≤ v) ∧
  (∀ k v, gestureConfidence s !! k = Some v → 3 ≤ v → lastGestureDetected s = k) ∧
  (∀ k1 k2 v1 v2, gestureConfidence s !! k1 = Some v1 →
                  gestureConfidence s !! k2 = Some v2 →
                  v1 ≠ 0 → v2 ≠ 0 → k1 = k2).

(** A no-landmarks timeout in the queue never repeats. *)
Definition oneShot (t : Timer) : Prop :=
  action t = NoLandmarksRestart → period t = None.

(** The pending no-landmarks timeouts are one-shot and carry the handle
    the service holds. *)
Definition timersOk (s : State) : Prop :=
  noLandmarksTracked s ∧ ∀ t, t ∈ timers s → oneShot t.

(** The hand [Hands.oneFinger] seen elsewhere in the frame and followed by
    a stray entry: other x coordinates, another wrist, other knuckles. *)
Definition oneFingerMoved : list Landmark :=
  <[0%nat := mkLandmark 0.1 0.9 0.3]>
    (<[5%nat := mkLandmark 0.2 0.1 0.2]>
       (map (λ p, mkLandmark 0.75 (ly p) (lz p)) Hands.oneFinger))
    ++ [mkLandmark 0 0 0].

(** Every event of the list is a report. *)
Definition reportsOnly (es : list Event) : Prop :=
  ∀ e, e ∈ es → ∃ now gesture disabled, e = Report now gesture disabled.

End MoreVocabulary.

(** ** The classifier and the geometry analyzer *)

Section ClassifierFacts.
Import Geometry Classifier.

Lemma extendedFingerCount_nonThumbCount (fl : FingerFlags) :
  extendedFingerCount fl = Z.of_nat (nonThumbCount fl).
Proof.
  destruct fl as [t [] [] [] []]; reflexivity.
Qed.

Lemma gestureOfFlags_firstMatch (fl : FingerFlags) :
  gestureOfFlags fl = firstMatch (isThumbUp fl) (nonThumbCount fl).
Proof.
  destruct fl as [[] [] [] [] []]; reflexivity.
Qed.

(** The classifier never answers 4: four raised fingers are an open hand. *)
Lemma gestureOfFlags_range (fl : FingerFlags) :
  gestureOfFlags fl ∈ [0; 1; 2; 3; 5; 6].
Proof.
  destruct fl as [[] [] [] [] []]; vm_compute; set_solver.
Qed.

Lemma fingerFlags_total (l : list Landmark) :
  (21 ≤ length l)%nat → is_Some (fingerFlags l).
Proof.
  intros Hlen.
  do 21 (destruct l as [|? l]; [simpl in Hlen; lia|]).
  unfold fingerFlags; simpl. eauto.
Qed.

Lemma computedFlags_short (landmarks : option (list Landmark)) :
  (∀ l, landmarks = Some l → (length l < 21)%nat) →
  computedFlags landmarks = None.
Proof.
  intros Hshort. destruct landmarks as [l|]; [|reflexivity].
  specialize (Hshort l eq_refl). unfold computedFlags.
  destruct (Z.ltb_spec (Z.of_nat (length l)) 21); [reflexivity|lia].
Qed.

Lemma detect_of_computedFlags (landmarks : option (list Landmark)) (fl : FingerFlags) :
  computedFlags landmarks = Some fl →
  detectImprovedGesture landmarks = Some (gestureOfFlags fl).
Proof.
  unfold computedFlags, detectImprovedGesture.
  destruct landmarks as [l|]; [|discriminate].
  destruct (Z.of_nat (length l) <? 21); [discriminate|].
  intros ->. reflexivity.
Qed.

(** The classifier never throws, whatever it is handed. *)
Lemma detectImprovedGesture_total (landmarks : option (list Landmark)) :
  is_Some (detectImprovedGesture landmarks).
Proof.
  destruct landmarks as [l|]; [|by eexists].
  unfold detectImprovedGesture.
  destruct (Z.ltb_spec (Z.of_nat (length l)) 21); [by eexists|].
  destruct (fingerFlags_total l) as [fl Hfl]; [lia|].
  rewrite Hfl. by eexists.
Qed.

(** C1: for the five flags of any frame, [detectImprovedGesture] answers by
    the first matching rule of: 6 when the thumb is up and no other finger
    is extended; 5 when at least four non-thumb fingers are extended; the
    count itself when it lies between 1 and 4; 0 otherwise. *)
Theorem detectImprovedGesture_first_match
    (landmarks : option (list Landmark)) (fl : FingerFlags) :
  computedFlags landmarks = Some fl →
  detectImprovedGesture landmarks
    = Some (firstMatch (isThumbUp fl) (nonThumbCount fl)).
Proof.
  intros Hfl. rewrite (detect_of_computedFlags _ _ Hfl).
  f_equal. apply gestureOfFlags_firstMatch.
Qed.

Lemma detectImprovedGesture_first_match_witness :
  computedFlags (Some Hands.twoFingers)
    = Some (mkFlags false true true false false) ∧
  detectImprovedGesture (Some Hands.twoFingers) = Some 2.
Proof.
  split; [vm_compute; reflexivity|].
  apply (detectImprovedGesture_first_match (Some Hands.twoFingers)
           (mkFlags false true true false false)).
  vm_compute; reflexivity.
Defined.

(** C4: in every hand observation each non-thumb finger is flagged
    extended exactly when its tip (8, 12, 16, 20) lies above its middle
    joint (6, 10, 14, 18) by more than 0.07 and within 0.07 of it in depth;
    the thumb is flagged up exactly when tip 4 lies above joint 3 by more
    than 0.05 and within 0.1 of it in depth. *)
Theorem fingerFlags_criterion (l : list Landmark) :
  (21 ≤ length l)%nat →
  ∃ fl, computedFlags (Some l) = Some fl ∧
    ∀ f, flagOf f fl = true ↔
      ∃ tip pip, l !! tipIndex f = Some tip ∧ l !! pipIndex f = Some pip ∧
                 raisedBeyond f tip pip.
Proof.
  intros Hlen. unfold computedFlags.
  destruct (Z.ltb_spec (Z.of_nat (length l)) 21); [lia|].
  do 21 (destruct l as [|? l]; [simpl in Hlen; lia|]).
  eexists; split; [reflexivity|].
  intros f; destruct f; simpl; unfold isFingerExtended, raisedBeyond; simpl;
    rewrite andb_true_iff; (split; [intros [? ?]; eauto 6|]);
    intros (tip & pip & Ht & Hp & ? & ?); simplify_eq; auto.
Qed.

Lemma fingerFlags_criterion_witness :
  (21 ≤ length Hands.oneFinger)%nat ∧
  ∃ fl, computedFlags (Some Hands.oneFinger) = Some fl ∧
    ∀ f, flagOf f fl = true ↔
      ∃ tip pip, Hands.oneFinger !! tipIndex f = Some tip ∧
                 Hands.oneFinger !! pipIndex f = Some pip ∧
                 raisedBeyond f tip pip.
Proof.
  split; [vm_compute; lia|].
  apply (fingerFlags_criterion Hands.oneFinger). vm_compute; lia.
Defined.

(** C5: a landmark list that is missing, empty or shorter than 21 makes
    [detectImprovedGesture] return 0 without throwing, and no finger is
    flagged extended. *)
Theorem detectImprovedGesture_malformed (landmarks : option (list Landmark)) :
  (∀ l, landmarks = Some l → (length l < 21)%nat) →
  detectImprovedGesture landmarks = Some 0 ∧
  ∀ f, flaggedExtended f landmarks = false.
Proof.
  intros Hshort. split.
  - destruct landmarks as [l|]; [|reflexivity].
    specialize (Hshort l eq_refl). unfold detectImprovedGesture.
    destruct (Z.ltb_spec (Z.of_nat (length l)) 21); [reflexivity|lia].
  - intros f. unfold flaggedExtended.
    by rewrite (computedFlags_short landmarks Hshort).
Qed.

Lemma detectImprovedGesture_malformed_witness :
  (∀ l, Some Hands.truncated = Some l → (length l < 21)%nat) ∧
  detectImprovedGesture (Some Hands.truncated) = Some 0 ∧
  ∀ f, flaggedExtended f (Some Hands.truncated) = false.
Proof.
  assert (H : ∀ l, Some Hands.truncated = Some l → (length l < 21)%nat).
  { intros l [= <-]. vm_compute. lia. }
  split; [exact H|].
  exact (detectImprovedGesture_malformed (Some Hands.truncated) H).
Defined.

End ClassifierFacts.

(** ** The confidence debouncer *)

Section DebouncerFacts.
Import Classifier Service.

Lemma resetOthers_lookup (gesture key : Z) (conf : gmap Z Z) :
  resetOthers gesture conf !! key
    = (λ v, if bool_decide (key = gesture) then v else 0) <$> conf !! key.
Proof.
  unfold resetOthers. rewrite map_lookup_imap.
  by destruct (conf !! key).
Qed.

Lemma resetOthers_self (gesture : Z) (conf : gmap Z Z) :
  resetOthers gesture conf !! gesture = conf !! gesture.
Proof.
  rewrite resetOthers_lookup, bool_decide_eq_true_2 by done.
  by destruct (conf !! gesture).
Qed.

Lemma processGesture_confidence (now gesture : Z) (s : State) :
  gestureConfidence (processGestureWithConfidence now gesture s).1
    = <[gesture := nextStreak gesture s]> (resetOthers gesture (gestureConfidence s)).
Proof.
  unfold processGestureWithConfidence, nextStreak. simpl.
  rewrite lookup_insert_eq, resetOthers_self. simpl.
  by destruct (_ && _).
Qed.

Lemma processGesture_last (now gesture : Z) (s : State) :
  lastGestureDetected (processGestureWithConfidence now gesture s).1
    = if fires gesture s then gesture else lastGestureDetected s.
Proof.
  unfold processGestureWithConfidence, fires, nextStreak. simpl.
  rewrite lookup_insert_eq, resetOthers_self. simpl.
  by destruct (_ && _).
Qed.

Lemma processGesture_effects (now gesture : Z) (s : State) :
  (processGestureWithConfidence now gesture s).2
    = if fires gesture s && gestureCallback s then [GestureEvent gesture] else [].
Proof.
  unfold processGestureWithConfidence, fires, nextStreak. simpl.
  rewrite lookup_insert_eq, resetOthers_self. simpl.
  destruct (_ && negb _); [|reflexivity]. simpl. by destruct (gestureCallback s).
Qed.

(** The cool-down is requested exactly when the gesture fires. *)
Lemma processGesture_timers (now gesture : Z) (s : State) :
  timers (processGestureWithConfidence now gesture s).1
    = if fires gesture s
      then timers s ++ [mkTimer (nextTimer s) (now + 1000) None CooldownReset]
      else timers s.
Proof.
  unfold processGestureWithConfidence, fires, nextStreak. simpl.
  rewrite lookup_insert_eq, resetOthers_self. simpl.
  by destruct (_ && _).
Qed.

Lemma stamped_fields (now : Z) (s : State) :
  gestureConfidence (stamped now s) = gestureConfidence s ∧
  lastGestureDetected (stamped now s) = lastGestureDetected s ∧
  gestureCallback (stamped now s) = gestureCallback s ∧
  isCalibrating (stamped now s) = isCalibrating s ∧
  canvasReady (stamped now s) = canvasReady s ∧
  lastLandmarkTime (stamped now s) = now ∧
  noLandmarksTimeout (stamped now s) = None.
Proof.
  unfold stamped.
  destruct (noLandmarksTimeout s) eqn:E; repeat split; try reflexivity.
  exact E.
Qed.

Lemma onResults_unfold (now : Z) (r : option (list (list Landmark))) (s : State) :
  onResults now r s
    = if negb (canvasReady s) then Some (stamped now s, [])
      else if handsDetected r then onHands now (default [] r) (stamped now s)
      else Some (set_noLandmarksTimeout (Some (nextTimer (stamped now s)))
                   (setTimeout now 5000 NoLandmarksRestart (stamped now s)).2, []).
Proof.
  destruct (stamped_fields now s) as (_ & _ & _ & _ & Hc & _ & Hn).
  rewrite <- Hc. unfold onResults. change (match noLandmarksTimeout (set_lastLandmarkTime now s) with
           | Some id => set_noLandmarksTimeout None (clearTimeout id (set_lastLandmarkTime now s))
           | None => set_lastLandmarkTime now s
           end) with (stamped now s).
  cbv zeta. rewrite Hn. reflexivity.
Qed.

Lemma detect_nonzero_positive (l : list Landmark) (g : Z) :
  detectImprovedGesture (Some l) = Some g → g ≠ 0 → (g >? 0) = true.
Proof.
  unfold detectImprovedGesture.
  destruct (Z.of_nat (length l) <? 21); [congruence|].
  destruct (Geometry.fingerFlags l) as [fl|]; [|discriminate].
  intros [= <-] Hnz. pose proof (gestureOfFlags_range fl) as Hr.
  rewrite !elem_of_cons, elem_of_nil in Hr.
  destruct (Z.gtb_spec (gestureOfFlags fl) 0); [done|lia].
Qed.

(** C2: on a processed frame whose hand classifies as a nonzero code [g],
    every other tracked streak becomes 0 (untracked codes stay untracked),
    the streak of [g] grows by one, and the frame emits the single event
    [g] exactly when that streak has reached the threshold of 3 and [g]
    is not the last-fired code; otherwise it emits nothing. *)
Theorem debouncer_frame (now g : Z) (l : list Landmark) (s : State) :
  canvasReady s = true → isCalibrating s = false → gestureCallback s = true →
  detectImprovedGesture (Some l) = Some g → g ≠ 0 →
  ∃ s' ev, onResults now (Some [l]) s = Some (s', ev) ∧
    (∀ k, k ≠ g → gestureConfidence s' !! k = (λ _, 0) <$> gestureConfidence s !! k) ∧
    gestureConfidence s' !! g = Some (default 0 (gestureConfidence s !! g) + 1) ∧
    ((default 0 (gestureConfidence s' !! g) >= 3 ∧ g ≠ lastGestureDetected s)
       → ev = [GestureEvent g] ∧ lastGestureDetected s' = g) ∧
    (¬ (default 0 (gestureConfidence s' !! g) >= 3 ∧ g ≠ lastGestureDetected s)
       → ev = [] ∧ lastGestureDetected s' = lastGestureDetected s).
Proof.
  intros Hc Hcal Hcb Hg Hnz.
  pose proof (detect_nonzero_positive l g Hg Hnz) as Hpos.
  rewrite onResults_unfold, Hc. simpl.
  destruct (stamped_fields now s) as (Hconf & Hlast & Hcb' & Hcal' & _).
  unfold onHand. rewrite Hcal', Hcal, Hcb', Hcb, Hg. simpl. rewrite Hpos.
  pose proof (processGesture_confidence now g (stamped now s)) as Pc.
  pose proof (processGesture_last now g (stamped now s)) as Pl.
  pose proof (processGesture_effects now g (stamped now s)) as Pe.
  destruct (processGestureWithConfidence now g (stamped now s)) as [s' ev].
  simpl in Pc, Pl, Pe. simpl.
  exists s', (ev ++ []). split; [reflexivity|].
  rewrite app_nil_r, Pc, Pl, Pe.
  unfold fires, nextStreak, gestureThreshold. rewrite Hconf, Hlast, Hcb', Hcb.
  rewrite lookup_insert_eq. simpl. rewrite andb_true_r.
  split; [|split; [reflexivity|split]].
  - intros k Hk. rewrite lookup_insert_ne, resetOthers_lookup by done.
    rewrite bool_decide_eq_false_2 by done. done.
  - intros [Hge Hne].
    destruct (Z.geb_spec (default 0 (gestureConfidence s !! g) + 1) 3); [|lia].
    destruct (Z.eqb_spec (lastGestureDetected s) g); [congruence|]. done.
  - intros Hnot.
    destruct (Z.geb_spec (default 0 (gestureConfidence s !! g) + 1) 3);
      [|done].
    destruct (Z.eqb_spec (lastGestureDetected s) g); [done|].
    exfalso. apply Hnot. split; [lia|congruence].
Qed.

Lemma onHand_zero (now : Z) (l : list Landmark) (s : State) :
  detectImprovedGesture (Some l) = Some 0 → onHand now l s = Some (s, []).
Proof.
  intros Hz. unfold onHand. rewrite Hz. simpl.
  destruct (isCalibrating s), (gestureCallback s); reflexivity.
Qed.

Lemma onHands_zero (now : Z) (hs : list (list Landmark)) (s : State) :
  (∀ l, l ∈ hs → detectImprovedGesture (Some l) = Some 0) →
  onHands now hs s = Some (s, []).
Proof.
  induction hs as [|l hs IH]; intros Hz; [reflexivity|].
  simpl. rewrite onHand_zero by (apply Hz; left). simpl.
  rewrite IH; [reflexivity|]. intros l' Hl'. apply Hz. by right.
Qed.

(** C6: a processed frame whose gesture code is 0 leaves the debouncer as
    it was: no streak changes, the last-fired code stays, and nothing is
    emitted. *)
Theorem debouncer_zero_frame
    (now : Z) (r : option (list (list Landmark))) (s : State) :
  zeroFrame r →
  ∃ s', onResults now r s = Some (s', []) ∧
    gestureConfidence s' = gestureConfidence s ∧
    lastGestureDetected s' = lastGestureDetected s.
Proof.
  intros Hz. rewrite onResults_unfold.
  destruct (stamped_fields now s) as (Hconf & Hlast & _).
  destruct (negb (canvasReady s)); [by eexists|].
  destruct (handsDetected r).
  - rewrite (onHands_zero now (default [] r) (stamped now s) Hz). by eexists.
  - eexists; split; [reflexivity|]. simpl. done.
Qed.

End DebouncerFacts.

(** ** Spacing of time-stamps *)

Section Spacing.

Lemma spaced_weaken (d lo lo' : Z) (l : list Z) :
  lo' ≤ lo → spaced d lo l → spaced d lo' l.
Proof.
  destruct l as [|x l]; simpl; [done|]. intros ? [? ?]. split; [lia|done].
Qed.

Lemma spaced_Forall (d lo : Z) (l : list Z) :
  0 ≤ d → spaced d lo l → Forall (λ x, lo + d ≤ x) l.
Proof.
  intros Hd. revert lo. induction l as [|x l IH]; intros lo; simpl; [constructor|].
  intros [Hx Hl]. constructor; [done|].
  eapply Forall_impl; [apply (IH x Hl)|]. simpl. intros; lia.
Qed.

(** Any two elements are at least [d] apart, in list order. *)
Lemma spaced_apart (d lo : Z) (l : list Z) (i j : nat) (x y : Z) :
  0 ≤ d → spaced d lo l → (i < j)%nat →
  l !! i = Some x → l !! j = Some y → x + d ≤ y.
Proof.
  intros Hd. revert lo i j. induction l as [|a l IH]; intros lo i j Hs Hij Hi Hj.
  - by rewrite lookup_nil in Hi.
  - destruct Hs as [Ha Hl]. destruct j as [|j]; [lia|]. simpl in Hj.
    destruct i as [|i].
    + simpl in Hi. injection Hi as ->.
      pose proof (spaced_Forall d x l Hd Hl) as HF.
      rewrite Forall_lookup in HF. exact (HF j y Hj).
    + simpl in Hi. eapply (IH a i j); eauto. lia.
Qed.

Lemma spaced_filter (d lo : Z) (P : Z → bool) (l : list Z) :
  0 ≤ d → spaced d lo l → spaced d lo (List.filter P l).
Proof.
  intros Hd. revert lo. induction l as [|x l IH]; intros lo; simpl; [done|].
  intros [Hx Hl]. destruct (P x); simpl.
  - split; [done|]. by apply IH.
  - apply (spaced_weaken d x); [lia|]. by apply IH.
Qed.

(** A spaced list that stays below [hi] cannot be long. *)
Lemma spaced_below (d lo hi : Z) (l : list Z) :
  0 ≤ d → spaced d lo l → Forall (λ x, x < hi) l →
  l = [] ∨ lo + d * Z.of_nat (length l) < hi.
Proof.
  intros Hd. revert lo. induction l as [|x l IH]; intros lo Hs Hb; [by left|].
  right. destruct Hs as [Hx Hl]. inversion Hb as [|? ? Hxhi Hb']; subst.
  destruct (IH x Hl Hb') as [->|Hlt]; simpl length; [simpl; lia|].
  rewrite Nat2Z.inj_succ. lia.
Qed.

(** At most [n] elements of a list spaced by [d] fall in a window of
    length [w], whenever [n * d ≥ w]. *)
Lemma spaced_window (d lo w T : Z) (n : nat) (l : list Z) :
  0 < d → w ≤ Z.of_nat n * d → spaced d lo l →
  (length (List.filter (inWindow T w) l) ≤ n)%nat.
Proof.
  intros Hd Hw Hs.
  set (P := inWindow T w).
  assert (HF : Forall (λ x, T ≤ x < T + w) (List.filter P l)).
  { rewrite List.Forall_forall. intros x Hx. apply List.filter_In in Hx as [_ Hx].
    unfold P, inWindow in Hx. apply andb_true_iff in Hx as [?%Z.leb_le ?%Z.ltb_lt]. lia. }
  pose proof (spaced_filter d lo P l ltac:(lia) Hs) as Hs'.
  destruct (List.filter P l) as [|x l'] eqn:E; [simpl; lia|].
  destruct Hs' as [_ Hl']. inversion HF as [|? ? Hx HF']; subst.
  destruct (spaced_below d x (T + w) l') as [->|Hlt]; [lia|done| |simpl; nia|].
  - eapply Forall_impl; [exact HF'|]. simpl. intros; lia.
  - simpl length. nia.
Qed.

End Spacing.

(** ** The frame-rate limiter *)

Section LimiterFacts.
Import Service Loop.

(** The constant the source compares against, as a double. *)
Lemma frame_interval_double :
  (66 <? 1000 / 15)%float = true ∧ (1000 / 15 <? 67)%float = true.
Proof. split; vm_compute; reflexivity. Qed.

Lemma limiter_test (d : Z) :
  Qle_bool (inject_Z d) (1000 # Z.to_pos processingFrameRate) = (d <=? 66).
Proof.
  unfold Qle_bool, processingFrameRate. simpl.
  destruct (Z.leb_spec (d * 15) 1000), (Z.leb_spec d 66); (reflexivity || lia).
Qed.

Lemma onFrame_dropped (now : Z) (s : State) :
  now - lastFrameProcessed s ≤ 66 → onFrame now s = (s, []).
Proof.
  intros Hd. unfold onFrame. rewrite limiter_test.
  destruct (Z.leb_spec (now - lastFrameProcessed s) 66); [reflexivity|lia].
Qed.

Lemma onFrame_processed (now : Z) (s : State) :
  66 < now - lastFrameProcessed s →
  onFrame now s
    = (set_lastFrameProcessed now s,
       if videoElement s && hands s then [HandsSend] else []).
Proof.
  intros Hd. unfold onFrame. rewrite limiter_test.
  destruct (Z.leb_spec (now - lastFrameProcessed s) 66); [lia|reflexivity].
Qed.

Lemma onFrames_spaced (arrivals : list Z) (s : State) :
  spaced 67 (lastFrameProcessed s) (onFrames arrivals s).2.
Proof.
  revert s. induction arrivals as [|now arrivals IH]; intros s; [done|].
  simpl. destruct (Z.le_gt_cases (now - lastFrameProcessed s) 66) as [Hd|Hd].
  - rewrite (onFrame_dropped now s Hd).
    specialize (IH s). destruct (onFrames arrivals s). exact IH.
  - rewrite (onFrame_processed now s) by lia.
    specialize (IH (set_lastFrameProcessed now s)).
    destruct (onFrames arrivals (set_lastFrameProcessed now s)) as [s' sent].
    simpl in IH. destruct (videoElement s && hands s); simpl.
    + split; [lia|exact IH].
    + apply (spaced_weaken 67 now); [lia|exact IH].
Qed.

(** C7: a frame that arrives less than 1000/15 ms after the last processed
    one is dropped, leaving the whole service state (timers included) as
    it was and sending nothing; and of the frames of any stream, at most
    15 sent on fall in any window of one second. *)
Theorem limiter_drops_and_bounds
    (now : Z) (s : State) (arrivals : list Z) (s0 : State) (T : Z) :
  15 * (now - lastFrameProcessed s) < 1000 →
  onFrame now s = (s, []) ∧
  (length (List.filter (inWindow T 1000) (onFrames arrivals s0).2) ≤ 15)%nat.
Proof.
  intros Hd. split.
  - apply onFrame_dropped. lia.
  - apply (spaced_window 67 (lastFrameProcessed s0) 1000 T 15); [lia|lia|].
    apply onFrames_spaced.
Qed.

End LimiterFacts.

(** ** The gate between the debouncer and the game *)

Section GateFacts.
Import Detector.

Lemma throttled_accepts (disabled : bool) (now gesture : Z) (g : Gate) :
  throttledGestureDetection disabled now gesture g
    = if accepts disabled now gesture g
      then (mkGate now false true, [mkDelivery (now + 200) gesture])
      else (g, []).
Proof.
  unfold throttledGestureDetection, accepts.
  destruct disabled; [reflexivity|].
  destruct (calibrationLockRef g) eqn:E; [reflexivity|]. simpl.
  by destruct (_ && _).
Qed.

Lemma feed_spaced (es : list Event) (g : Gate) :
  spaced 501 (lastGestureTimeRef g + 200) (deliverAt <$> (feed es g).2).
Proof.
  revert g. induction es as [|e es IH]; intros g; [done|].
  simpl. destruct e as [now gesture disabled|b]; simpl.
  - rewrite throttled_accepts. destruct (accepts disabled now gesture g) eqn:Ha.
    + specialize (IH (mkGate now false true)).
      destruct (feed es (mkGate now false true)) as [g' ds]. simpl in *.
      split; [|exact IH]. unfold accepts in Ha.
      rewrite !andb_true_iff in Ha. destruct Ha as [[_ Hgt] _].
      apply Z.gtb_lt in Hgt. lia.
    + specialize (IH g). destruct (feed es g) as [g' ds]. exact IH.
  - specialize (IH (mkGate (lastGestureTimeRef g) b (isProcessing g))).
    destruct (feed es _) as [g' ds]. exact IH.
Qed.

(** C10: a report that arrives while the component is disabled, while the
    calibration lock is held, or less than 500 ms after the report last
    let through is dropped without a trace; a report the gate accepts is
    handed to the game callback once, by a timeout of 200 ms; and the
    scheduled hand-overs of any history are pairwise more than 500 ms
    apart. *)
Theorem gate_throttle
    (disabled : bool) (now gesture : Z) (g : Gate) (es : list Event) (g0 : Gate) :
  disabled = true ∨ calibrationLockRef g = true ∨ now - lastGestureTimeRef g < 500 →
  throttledGestureDetection disabled now gesture g = (g, []) ∧
  (∀ d n c g1, accepts d n c g1 = true →
     (throttledGestureDetection d n c g1).2 = [mkDelivery (n + 200) c]) ∧
  (∀ i j x y, (i < j)%nat →
     (feed es g0).2 !! i = Some x → (feed es g0).2 !! j = Some y →
     deliverAt x + 500 < deliverAt y).
Proof.
  intros Hwhy. split; [|split].
  - rewrite throttled_accepts.
    assert (accepts disabled now gesture g = false) as ->; [|reflexivity].
    unfold accepts. destruct Hwhy as [->| [->|Hlt] ]; [reflexivity| |].
    + by rewrite andb_false_r.
    + destruct (Z.gtb_spec (now - lastGestureTimeRef g) 500); [lia|].
      by rewrite andb_false_r.
  - intros d n c g1 Ha. by rewrite throttled_accepts, Ha.
  - intros i j x y Hij Hi Hj.
    pose proof (feed_spaced es g0) as Hs.
    assert (deliverAt x + 501 ≤ deliverAt y); [|lia].
    eapply (spaced_apart 501 _ (deliverAt <$> (feed es g0).2) i j); eauto; [lia| |].
    + by rewrite list_lookup_fmap, Hi.
    + by rewrite list_lookup_fmap, Hj.
Qed.

Lemma gate_throttle_witness :
  (false = true ∨ calibrationLockRef (mkGate 1000000 false true) = true
     ∨ 1000400 - lastGestureTimeRef (mkGate 1000000 false true) < 500) ∧
  throttledGestureDetection false 1000400 2 (mkGate 1000000 false true)
    = (mkGate 1000000 false true, []) ∧
  (feed [SetLock false; Report 1000000 1 false; Report 1000400 2 false;
         Report 1000501 2 false] mounted).2
    = [mkDelivery 1000200 1; mkDelivery 1000701 2].
Proof.
  assert (H : false = true ∨ calibrationLockRef (mkGate 1000000 false true) = true
     ∨ 1000400 - lastGestureTimeRef (mkGate 1000000 false true) < 500).
  { right; right. simpl. lia. }
  split; [exact H|]. split; [|reflexivity].
  exact (proj1 (gate_throttle false 1000400 2 (mkGate 1000000 false true) [] mounted H)).
Defined.

End GateFacts.

(** ** Runs of the scenarios *)

Section ScenarioFacts.
Import Classifier Service Loop Scenario.

Lemma debouncer_frame_witness :
  ∃ s' ev, onResults (T0 + 5234) (Some [Hands.oneFinger]) primed = Some (s', ev) ∧
    (∀ k, k ≠ 1 → gestureConfidence s' !! k
                    = (λ _, 0) <$> gestureConfidence primed !! k) ∧
    gestureConfidence s' !! 1
      = Some (default 0 (gestureConfidence primed !! 1) + 1) ∧
    ((default 0 (gestureConfidence s' !! 1) >= 3 ∧ 1 ≠ lastGestureDetected primed)
       → ev = [GestureEvent 1] ∧ lastGestureDetected s' = 1) ∧
    (¬ (default 0 (gestureConfidence s' !! 1) >= 3 ∧ 1 ≠ lastGestureDetected primed)
       → ev = [] ∧ lastGestureDetected s' = lastGestureDetected primed).
Proof.
  apply (debouncer_frame (T0 + 5234) 1 Hands.oneFinger primed);
    [reflexivity|reflexivity|reflexivity|vm_compute; reflexivity|lia].
Defined.

Lemma debouncer_zero_frame_witness :
  zeroFrame (Some [Hands.fist]) ∧
  ∃ s', onResults (T0 + 5234) (Some [Hands.fist]) primed = Some (s', []) ∧
    gestureConfidence s' = gestureConfidence primed ∧
    lastGestureDetected s' = lastGestureDetected primed.
Proof.
  assert (H : zeroFrame (Some [Hands.fist])).
  { intros l Hl. simpl in Hl. apply list_elem_of_singleton in Hl as ->.
    vm_compute. reflexivity. }
  split; [exact H|].
  exact (debouncer_zero_frame (T0 + 5234) (Some [Hands.fist]) primed H).
Defined.

Lemma limiter_drops_and_bounds_witness :
  15 * (T0 + 5200 - lastFrameProcessed primed) < 1000 ∧
  onFrame (T0 + 5200) primed = (primed, []) ∧
  (length (List.filter (inWindow (T0 + 5200) 1000)
             (onFrames (burst (T0 + 5200) 10 200) primed).2)
     ≤ 15)%nat.
Proof.
  assert (H : 15 * (T0 + 5200 - lastFrameProcessed primed) < 1000).
  { vm_compute. reflexivity. }
  split; [exact H|].
  exact (limiter_drops_and_bounds (T0 + 5200) primed
           (burst (T0 + 5200) 10 200) primed (T0 + 5200) H).
Defined.

(** The limiter does let 15 frames a second through. *)
Example limiter_fifteen :
  length (List.filter (inWindow (T0 + 5234) 1000)
            (onFrames (burst (T0 + 5200) 1 2000) primed).2)
    = 15%nat.
Proof. vm_compute. reflexivity. Qed.

(** C3: the pose changes from one finger to two and two fingers are then
    held.  The event 1 fires at [T0 + 5234] and the event 2 at
    [T0 + 5435]; the cool-down of the event 1 runs out at [T0 + 6234] and
    wipes the last-fired code and the streaks, so the held pose fires the
    event 2 again at [T0 + 6373], 938 ms after it first fired. *)
Theorem cooldown_cut_short :
  (λ r, gestureEvents r.2) <$> run changeThenHold T0 fresh
    = Some [(T0 + 5234, 1); (T0 + 5435, 2); (T0 + 6373, 2)].
Proof. vm_compute. reflexivity. Qed.

(** C8: from a cold start every processed frame comes back without a
    hand, ten times a second for eight seconds.  No restart is ever
    signalled: each result clears the no-landmarks timeout before it is
    armed again, so all that is pending at the end is the timeout armed by
    the last frame. *)
Theorem no_landmarks_timeout_starved :
  (λ r, (restarts r.2,
         List.filter (λ t, bool_decide (action t = NoLandmarksRestart)) (timers r.1)))
    <$> run nobodyThere T0 fresh
    = Some ([], [mkTimer 81 (T0 + 13000) None NoLandmarksRestart]).
Proof. vm_compute. reflexivity. Qed.

(** With no earlier cool-down pending the debouncer keeps its word: two
    fingers held from [T0 + 5100] fire at the third frame and again only
    once the second of cool-down is over. *)
Example held_pose_refires :
  (λ r, gestureEvents r.2) <$> run (boot ++ every67 (T0 + 5033) 20 twoFingerFrame) T0 fresh
    = Some [(T0 + 5234, 2); (T0 + 6373, 2)].
Proof. vm_compute. reflexivity. Qed.

(** One result without a hand, then silence: the no-landmarks timeout is
    cleared by the liveness check at [T0 + 4000], which signals again at
    every later check. *)
Example silence_after_empty_frame :
  (λ r, restarts r.2)
    <$> run [(T0, Initialize true); (T0 + 100, emptyFrame); (T0 + 9000, CameraFrame)]
            T0 fresh
    = Some [(T0 + 4000, StuckRestart); (T0 + 6000, StuckRestart);
            (T0 + 8000, StuckRestart)].
Proof. vm_compute. reflexivity. Qed.

End ScenarioFacts.

(** ** The watchdog *)

Section WatchdogFacts.
Import Classifier Service Loop Scenario.

Lemma processGesture_watchdog (now gesture : Z) (s : State) :
  lastLandmarkTime (processGestureWithConfidence now gesture s).1 = lastLandmarkTime s ∧
  noLandmarksTimeout (processGestureWithConfidence now gesture s).1 = noLandmarksTimeout s.
Proof.
  unfold processGestureWithConfidence. by destruct (_ && _).
Qed.

Lemma onHand_watchdog (now : Z) (l : list Landmark) (s s' : State) (e : list Effect) :
  onHand now l s = Some (s', e) →
  lastLandmarkTime s' = lastLandmarkTime s ∧
  noLandmarksTimeout s' = noLandmarksTimeout s.
Proof.
  unfold onHand.
  destruct (isCalibrating s); [by intros [= <- <-]|].
  destruct (gestureCallback s); [|by intros [= <- <-]].
  destruct (detectImprovedGesture (Some l)) as [g|]; [|discriminate]. simpl.
  destruct (g >? 0); [|by intros [= <- <-]].
  intros [= H]. pose proof (processGesture_watchdog now g s) as P.
  rewrite H in P. exact P.
Qed.

Lemma onHands_watchdog (now : Z) (hs : list (list Landmark)) (s s' : State)
    (e : list Effect) :
  onHands now hs s = Some (s', e) →
  lastLandmarkTime s' = lastLandmarkTime s ∧
  noLandmarksTimeout s' = noLandmarksTimeout s.
Proof.
  revert s e. induction hs as [|l hs IH]; intros s e; simpl.
  - by intros [= <- <-].
  - destruct (onHand now l s) as [[s1 e1]|] eqn:E1; [|discriminate]. simpl.
    destruct (onHands now hs s1) as [[s2 e2]|] eqn:E2; [|discriminate]. simpl.
    intros [= <- <-].
    destruct (IH _ _ E2) as [-> ->].
    exact (onHand_watchdog _ _ _ _ _ E1).
Qed.

(** When the 2-second check signals. *)
Lemma stuckCheck_signals (now : Z) (s : State) :
  StuckRestart ∈ (stuckCheck now s).2
  ↔ now - lastLandmarkTime s > 3000 ∧ lastLandmarkTime s ≠ 0.
Proof.
  unfold stuckCheck.
  destruct (Z.gtb_spec (now - lastLandmarkTime s) 3000),
           (Z.eqb_spec (lastLandmarkTime s) 0); simpl;
    rewrite ?elem_of_nil, ?elem_of_cons; split; try tauto; try lia.
Qed.

(** Every result callback stamps the clock, hand or no hand. *)
Lemma onResults_stamps (now : Z) (r : option (list (list Landmark)))
    (s s' : State) (e : list Effect) :
  onResults now r s = Some (s', e) → lastLandmarkTime s' = now.
Proof.
  rewrite onResults_unfold.
  destruct (stamped_fields now s) as (_ & _ & _ & _ & _ & Ht & _).
  destruct (negb (canvasReady s)); [by intros [= <- <-]|].
  destruct (handsDetected r).
  - intros H. destruct (onHands_watchdog _ _ _ _ _ H) as [-> _]. exact Ht.
  - by intros [= <- <-].
Qed.

(** C9: a hand is seen at [T0 + 500] and never again, while results
    without a hand keep arriving each second.  The liveness checks at
    [T0 + 4000], [T0 + 6000] and [T0 + 8000] come more than 3 seconds
    after the last hand observation, yet none signals a restart: the check
    at [T0 + 6000] finds a time stamp of [T0 + 5500], because [onResults]
    stamps [lastLandmarkTime] for every result, also for one that shows
    no hand. *)
Theorem liveness_clock_reset_without_hand :
  (λ r, (restarts r.2, lastLandmarkTime r.1)) <$> run handThenNothing T0 fresh
    = Some ([], T0 + 9500) ∧
  (λ r, (lastLandmarkTime r.1, (stuckCheck (T0 + 6000) r.1).2))
    <$> run (take 7 handThenNothing) T0 fresh
    = Some (T0 + 5500, []) ∧
  (λ r, (lastLandmarkTime r.1, r.2)) <$> onResults (T0 + 6000) (Some []) primed
    = Some (T0 + 6000, []) ∧
  handsDetected (Some []) = false ∧
  lastLandmarkTime primed = T0 + 5167.
Proof. vm_compute. repeat split; reflexivity. Qed.

Lemma stamped_clears (now : Z) (s : State) :
  noLandmarksTracked s →
  ∀ t, t ∈ timers (stamped now s) → action t ≠ NoLandmarksRestart.
Proof.
  intros Htr t Hin Ha. unfold stamped in Hin.
  destruct (noLandmarksTimeout s) as [id|] eqn:E.
  - cbn in Hin. apply list_elem_of_filter in Hin as [Hne Hin].
    specialize (Htr t Hin Ha). congruence.
  - cbn in Hin. specialize (Htr t Hin Ha). congruence.
Qed.

Lemma onHand_timers (now : Z) (l : list Landmark) (s s' : State) (e : list Effect) :
  onHand now l s = Some (s', e) →
  ∀ t, t ∈ timers s' → t ∈ timers s ∨ action t = CooldownReset.
Proof.
  unfold onHand.
  destruct (isCalibrating s); [intros [= <- <-]; by left|].
  destruct (gestureCallback s); [|intros [= <- <-]; by left].
  destruct (detectImprovedGesture (Some l)) as [g|]; [|discriminate]. simpl.
  destruct (g >? 0); [|intros [= <- <-]; by left].
  intros [= H] t. pose proof (processGesture_timers now g s) as P.
  rewrite H in P. cbn [fst] in P. rewrite P.
  destruct (fires g s); [|by left].
  intros [Hin|Hin]%elem_of_app; [by left|].
  apply list_elem_of_singleton in Hin as ->. by right.
Qed.

Lemma onHands_timers (now : Z) (hs : list (list Landmark)) (s s' : State)
    (e : list Effect) :
  onHands now hs s = Some (s', e) →
  ∀ t, t ∈ timers s' → t ∈ timers s ∨ action t = CooldownReset.
Proof.
  revert s e. induction hs as [|l hs IH]; intros s e; simpl.
  - intros [= <- <-]. by left.
  - destruct (onHand now l s) as [[s1 e1]|] eqn:E1; [|discriminate]. simpl.
    destruct (onHands now hs s1) as [[s2 e2]|] eqn:E2; [|discriminate]. simpl.
    intros [= <- <-] t Hin.
    destruct (IH _ _ E2 t Hin) as [Hin1|]; [|by right].
    exact (onHand_timers _ _ _ _ _ E1 t Hin1).
Qed.

(** Whatever a result holds, it leaves no no-landmarks timeout pending
    but the one it arms itself, 5 seconds ahead, when it shows no hand:
    a timeout armed by an earlier result without a hand never survives
    the next result. *)
Lemma onResults_rearms (now : Z) (r : option (list (list Landmark)))
    (s s' : State) (e : list Effect) :
  noLandmarksTracked s → onResults now r s = Some (s', e) →
  ∀ t, t ∈ timers s' → action t = NoLandmarksRestart →
       due t = now + 5000 ∧ handsDetected r = false.
Proof.
  intros Htr Hr t Hin Ha. rewrite onResults_unfold in Hr.
  pose proof (stamped_clears now s Htr) as Hclear.
  destruct (negb (canvasReady s)).
  { injection Hr as <- <-. by destruct (Hclear t Hin). }
  destruct (handsDetected r).
  - destruct (onHands_timers _ _ _ _ _ Hr t Hin) as [Hin'|Hc]; [|congruence].
    by destruct (Hclear t Hin').
  - injection Hr as <- <-. cbn in Hin.
    apply elem_of_app in Hin as [Hin|Hin]; [by destruct (Hclear t Hin)|].
    apply list_elem_of_singleton in Hin as ->. done.
Qed.

End WatchdogFacts.

(** ** The cool-down in isolation *)

Section CooldownFacts.
Import Classifier Service Loop Scenario.

Ltac solve_quiet :=
  let e := fresh "e" in let He := fresh "He" in
  intros e He ?;
  repeat (apply elem_of_cons in He as [->|He]; [discriminate|]);
  by apply elem_of_nil in He.

Lemma quiet_nil : quiet [].
Proof. intros e He. by apply elem_of_nil in He. Qed.

Lemma quiet_app (a b : list Effect) : quiet a → quiet b → quiet (a ++ b).
Proof.
  intros Ha Hb e He. apply elem_of_app in He as [He|He]; [by apply Ha|by apply Hb].
Qed.

Lemma gestureEvents_app (a b : list (Z * Effect)) :
  gestureEvents (a ++ b) = gestureEvents a ++ gestureEvents b.
Proof. apply omap_app. Qed.

Lemma gestureEvents_quiet (now : Z) (es : list Effect) :
  quiet es → gestureEvents (stamp now es) = [].
Proof.
  induction es as [|e es IH]; intros Hq; [reflexivity|].
  assert (He : ∀ g, e ≠ GestureEvent g) by (apply Hq; left).
  assert (IH' : gestureEvents (stamp now es) = [])
    by (apply IH; intros e' He'; apply Hq; by right).
  unfold gestureEvents, stamp in *.
  destruct e; simpl; try exact IH'. by destruct (He gesture).
Qed.

Lemma cooling_clearTimeout (g bound : Z) (id : nat) (s : State) :
  coolingDown g bound s → coolingDown g bound (clearTimeout id s).
Proof.
  intros [Hl Ht]. split; [exact Hl|]. simpl.
  intros t Hin. apply list_elem_of_filter in Hin as [_ Hin]. by apply Ht.
Qed.

Lemma cooling_schedule (g bound now delay : Z) (rep : bool) (cb : Callback) (s : State) :
  cb ≠ CooldownReset →
  coolingDown g bound s → coolingDown g bound (schedule now delay rep cb s).2.
Proof.
  intros Hcb [Hl Ht]. split; [exact Hl|]. simpl.
  intros t Hin. apply elem_of_app in Hin as [Hin|Hin]; [by apply Ht|].
  apply list_elem_of_singleton in Hin as ->. simpl. by intros.
Qed.

Lemma cooling_runCallback (g bound now : Z) (cb : Callback) (s : State) :
  cb ≠ CooldownReset → coolingDown g bound s →
  coolingDown g bound (runCallback now cb s).1 ∧ quiet (runCallback now cb s).2.
Proof.
  intros Hcb Hs. destruct cb; [done| | | |]; unfold runCallback.
  - unfold noLandmarksRestart, setTimeout. cbn [fst snd].
    split; [by apply cooling_schedule|].
    destruct (camera s); solve_quiet.
  - unfold stuckCheck, setTimeout.
    destruct (_ && _); cbn [fst snd]; [|split; [done|apply quiet_nil]].
    split.
    + apply cooling_schedule; [done|].
      destruct (noLandmarksTimeout s) as [id|]; [|done].
      destruct (cooling_clearTimeout g bound id s Hs) as [? ?]. by split.
    + destruct (camera s); solve_quiet.
  - cbn [fst snd]. split; [|apply quiet_nil]. destruct Hs. by split.
  - unfold initializeCamera. cbn -[Z.add]. destruct (videoElement s); cbn [fst snd].
    + split; [destruct Hs; by split|solve_quiet].
    + split; [destruct Hs; by split|apply quiet_nil].
Qed.

Lemma cooling_fire (g bound now : Z) (t : Timer) (s : State) :
  action t ≠ CooldownReset → coolingDown g bound s →
  coolingDown g bound (fire now t s).1 ∧ quiet (fire now t s).2.
Proof.
  intros Ha Hs. unfold fire. destruct (pending (tid t) s); [|split; [done|apply quiet_nil]].
  apply cooling_runCallback; [done|].
  pose proof (cooling_clearTimeout g bound (tid t) s Hs) as [Hl Ht].
  destruct (period t); [|by split].
  split; [exact Hl|]. simpl. intros u Hin.
  apply elem_of_app in Hin as [Hin|Hin]; [by apply Ht|].
  apply list_elem_of_singleton in Hin as ->. simpl. by intros.
Qed.

Lemma cooling_fireAll (g bound now : Z) (ts : list Timer) (s : State) :
  (∀ t, t ∈ ts → action t ≠ CooldownReset) → coolingDown g bound s →
  coolingDown g bound (fireAll now ts s).1 ∧ quiet (fireAll now ts s).2.
Proof.
  revert s. induction ts as [|t ts IH]; intros s Hts Hs; simpl.
  - split; [done|apply quiet_nil].
  - destruct (cooling_fire g bound now t s) as [H1 Q1]; [apply Hts; left|done|].
    destruct (fire now t s) as [s1 e1]. simpl in H1, Q1.
    destruct (IH s1) as [H2 Q2]; [intros u Hu; apply Hts; by right|done|].
    destruct (fireAll now ts s1) as [s2 e2]. simpl in *.
    split; [done|by apply quiet_app].
Qed.

Lemma cooling_advance (g bound : Z) (n : nat) (clock : Z) (s : State) :
  clock + Z.of_nat n < bound → coolingDown g bound s →
  coolingDown g bound (advance n clock s).1 ∧
  gestureEvents (advance n clock s).2 = [].
Proof.
  revert clock s. induction n as [|n IH]; intros clock s Hb Hs; simpl; [done|].
  destruct (cooling_fireAll g bound (clock + 1) (dueAt (clock + 1) s) s) as [H1 Q1];
    [|done|].
  { intros t Hin Ha. unfold dueAt in Hin.
    apply list_elem_of_filter in Hin as [Hdue Hin].
    destruct Hs as [_ Ht]. specialize (Ht t Hin Ha). lia. }
  destruct (fireAll (clock + 1) (dueAt (clock + 1) s) s) as [s1 e1]. simpl in H1, Q1.
  destruct (IH (clock + 1) s1) as [H2 Q2]; [lia|done|].
  destruct (advance n (clock + 1) s1) as [s2 tr]. simpl in *.
  split; [done|]. by rewrite gestureEvents_app, gestureEvents_quiet, Q2.
Qed.

Lemma cooling_stamped (g bound now : Z) (s : State) :
  coolingDown g bound s → coolingDown g bound (stamped now s).
Proof.
  intros Hs. unfold stamped. destruct (noLandmarksTimeout s) as [id|].
  - destruct (cooling_clearTimeout g bound id s Hs) as [? ?]. by split.
  - destruct Hs. by split.
Qed.

(** While [g] is the last-fired code, a frame of [g] only lengthens the
    streak. *)
Lemma processGesture_suppressed (now : Z) (s : State) :
  processGestureWithConfidence now (lastGestureDetected s) s
    = (set_gestureConfidence
         (<[lastGestureDetected s := nextStreak (lastGestureDetected s) s]>
            (resetOthers (lastGestureDetected s) (gestureConfidence s))) s, []).
Proof.
  unfold processGestureWithConfidence, nextStreak. cbn -[Z.add resetOthers].
  rewrite Z.eqb_refl, andb_false_r. by rewrite resetOthers_self.
Qed.

Lemma cooling_onHand (g bound now : Z) (l : list Landmark) (s : State) :
  detectImprovedGesture (Some l) = Some g ∨ detectImprovedGesture (Some l) = Some 0 →
  coolingDown g bound s →
  ∃ s', onHand now l s = Some (s', []) ∧ coolingDown g bound s'.
Proof.
  intros Hd Hs. unfold onHand.
  destruct (isCalibrating s); [by eexists|].
  destruct (gestureCallback s); [|by eexists].
  destruct Hd as [-> | ->]; cbn [mbind option_bind]; [|by eexists].
  destruct (g >? 0); [|by eexists].
  destruct Hs as [Hl Ht]. subst g. rewrite processGesture_suppressed.
  eexists; split; [reflexivity|]. by split.
Qed.

Lemma cooling_onHands (g bound now : Z) (hs : list (list Landmark)) (s : State) :
  (∀ l, l ∈ hs →
     detectImprovedGesture (Some l) = Some g ∨ detectImprovedGesture (Some l) = Some 0) →
  coolingDown g bound s →
  ∃ s', onHands now hs s = Some (s', []) ∧ coolingDown g bound s'.
Proof.
  revert s. induction hs as [|l hs IH]; intros s Hh Hs; [by eexists|].
  destruct (cooling_onHand g bound now l s) as (s1 & E1 & H1); [apply Hh; left|done|].
  destruct (IH s1) as (s2 & E2 & H2); [intros l' Hl'; apply Hh; by right|done|].
  exists s2. split; [|done]. cbn [onHands]. rewrite E1. cbn. rewrite E2. reflexivity.
Qed.

Lemma cooling_handle (g bound now : Z) (i : Input) (s : State) :
  holds g i → coolingDown g bound s →
  ∃ s' e, handle now i s = Some (s', e) ∧ coolingDown g bound s' ∧ quiet e.
Proof.
  intros Hi Hs. destruct i as [| | | | |r]; try done.
  - cbn [handle]. unfold onFrame. destruct (Qle_bool _ _).
    + exists s, []. split; [done|]. split; [done|apply quiet_nil].
    + eexists _, _. split; [reflexivity|]. split; [destruct Hs; by split|].
      cbn. destruct (videoElement s && hands s); [solve_quiet|apply quiet_nil].
  - cbn [handle]. rewrite onResults_unfold.
    pose proof (cooling_stamped g bound now s Hs) as Hs'.
    destruct (negb (canvasReady s)).
    { eexists _, _. split; [reflexivity|]. split; [done|apply quiet_nil]. }
    destruct (handsDetected r).
    + destruct (cooling_onHands g bound now (default [] r) (stamped now s) Hi Hs')
        as (s' & E & H'). exists s', []. split; [done|]. split; [done|apply quiet_nil].
    + eexists _, _. split; [reflexivity|]. split; [|apply quiet_nil].
      destruct (cooling_schedule g bound now 5000 false NoLandmarksRestart
                  (stamped now s) ltac:(done) Hs') as [? ?]. by split.
Qed.

(** While a pose is held and its cool-down has not run out, the service
    emits no gesture event: the same code is suppressed and, absent an
    earlier cool-down still pending, nothing lifts the suppression before
    [bound]. *)
Lemma cooling_run (g bound : Z) (script : list (Z * Input)) (clock : Z) (s : State) :
  (∀ now i, (now, i) ∈ script → now < bound ∧ holds g i) →
  inOrder clock script →
  coolingDown g bound s →
  ∃ s' tr, run script clock s = Some (s', tr) ∧
           coolingDown g bound s' ∧ gestureEvents tr = [].
Proof.
  revert clock s. induction script as [|[now i] script IH]; intros clock s Hsc Hsorted Hs.
  { exists s, []. by split. }
  cbn [run]. destruct Hsorted as [Hle Hsorted].
  destruct (Z.ltb_spec now clock); [lia|].
  destruct (Hsc now i) as [Hb Hi]; [left|].
  destruct (cooling_advance g bound (Z.to_nat (now - clock)) clock s) as [H1 Q1];
    [lia|done|].
  destruct (advance (Z.to_nat (now - clock)) clock s) as [s1 tr1]. cbn [fst snd] in H1, Q1.
  destruct (cooling_handle g bound now i s1 Hi H1) as (s2 & e & E2 & H2 & Q2).
  rewrite E2. cbn [mbind option_bind].
  destruct (IH now s2) as (s3 & tr3 & E3 & H3 & Q3);
    [intros n' i' Hin; apply Hsc; by right|done|done|].
  rewrite E3. cbn [mbind option_bind].
  exists s3, (tr1 ++ stamp now e ++ tr3). split; [reflexivity|]. split; [done|].
  by rewrite !gestureEvents_app, Q1, gestureEvents_quiet, Q3.
Qed.

(** A firing frame starts that regime: if no cool-down was pending when
    [g] fired at [now], then [g] is the last-fired code and the only reset
    due is the one of this firing, at [now + 1000]. *)
Lemma firing_starts_cooldown (now g : Z) (s : State) :
  (∀ t, t ∈ timers s → action t ≠ CooldownReset) →
  fires g s = true →
  coolingDown g (now + 1000) (processGestureWithConfidence now g s).1.
Proof.
  intros Hnone Hf. split.
  - by rewrite processGesture_last, Hf.
  - rewrite processGesture_timers, Hf. intros t Hin Ha.
    apply elem_of_app in Hin as [Hin|Hin]; [by destruct (Hnone t Hin)|].
    apply list_elem_of_singleton in Hin as ->. simpl. lia.
Qed.

(** When the cool-down runs out the debouncer starts afresh, and the
    third further frame of the held pose fires it again. *)
Lemma cooldownReset_clears (s : State) :
  lastGestureDetected (cooldownReset s) = 0 ∧ gestureConfidence (cooldownReset s) = ∅.
Proof. done. Qed.

Lemma refires_after_cooldown (t1 t2 g : Z) (s : State) :
  g ≠ 0 →
  let s1 := (processGestureWithConfidence t1 g (cooldownReset s)).1 in
  let s2 := (processGestureWithConfidence t2 g s1).1 in
  fires g (cooldownReset s) = false ∧ fires g s1 = false ∧ fires g s2 = true.
Proof.
  intros Hg s1 s2. unfold fires, nextStreak.
  subst s2. rewrite processGesture_confidence, processGesture_last.
  unfold fires, nextStreak. subst s1.
  rewrite !processGesture_confidence, !processGesture_last.
  unfold fires, nextStreak. cbn -[resetOthers]. rewrite !lookup_insert_eq. cbn.
  rewrite lookup_empty. cbn.
  destruct g; [done| |]; repeat split; reflexivity.
Qed.

(** A frame that emits [g] is one on which the firing test passed. *)
Lemma onHand_fires (now g : Z) (l : list Landmark) (s s1 : State) (ev : list Effect) :
  onHand now l s = Some (s1, ev) → GestureEvent g ∈ ev →
  s1 = (processGestureWithConfidence now g s).1 ∧ fires g s = true.
Proof.
  unfold onHand. intros Hr Hev.
  destruct (isCalibrating s); [simplify_eq; by apply elem_of_nil in Hev|].
  destruct (gestureCallback s) eqn:Hcb; [|simplify_eq; by apply elem_of_nil in Hev].
  destruct (detectImprovedGesture (Some l)) as [g'|]; [|discriminate].
  cbn [mbind option_bind] in Hr.
  destruct (g' >? 0); [|simplify_eq; by apply elem_of_nil in Hev].
  pose proof (processGesture_effects now g' s) as Pe.
  destruct (processGestureWithConfidence now g' s) as [s' e'] eqn:E.
  simplify_eq. cbn [fst snd] in *. rewrite Pe in Hev.
  destruct (fires g' s) eqn:Hf; [|by apply elem_of_nil in Hev].
  rewrite Hcb in Hev. apply list_elem_of_singleton in Hev as [= ->].
  by rewrite E.
Qed.

Lemma onResults_fires (now g : Z) (l : list Landmark) (s s1 : State) (ev : list Effect) :
  onResults now (Some [l]) s = Some (s1, ev) → GestureEvent g ∈ ev →
  s1 = (processGestureWithConfidence now g (stamped now s)).1 ∧
  fires g (stamped now s) = true.
Proof.
  rewrite onResults_unfold. intros Hr Hev.
  destruct (negb (canvasReady s)); [simplify_eq; by apply elem_of_nil in Hev|].
  change (onHands now [l] (stamped now s) = Some (s1, ev)) in Hr.
  cbn [onHands] in Hr.
  destruct (onHand now l (stamped now s)) as [[s' e']|] eqn:E;
    cbn in Hr; [|discriminate].
  simplify_eq. rewrite app_nil_r in Hev.
  exact (onHand_fires _ _ _ _ _ _ E Hev).
Qed.

(** Together: a frame fires [g] while no earlier cool-down is pending;
    then, however long the pose is held, no further event is emitted
    before a full second has passed. *)
Lemma held_pose_silent (now g : Z) (l : list Landmark) (s s1 : State)
    (ev : list Effect) (script : list (Z * Input)) :
  (∀ t, t ∈ timers s → action t ≠ CooldownReset) →
  onResults now (Some [l]) s = Some (s1, ev) → GestureEvent g ∈ ev →
  (∀ t i, (t, i) ∈ script → t < now + 1000 ∧ holds g i) →
  inOrder now script →
  ∃ s2 tr, run script now s1 = Some (s2, tr) ∧ gestureEvents tr = [].
Proof.
  intros Hnone Hr Hev Hheld Hord.
  destruct (onResults_fires _ _ _ _ _ _ Hr Hev) as [-> Hf].
  assert (Hcool : coolingDown g (now + 1000)
                    (processGestureWithConfidence now g (stamped now s)).1).
  { apply firing_starts_cooldown; [|done].
    intros t Hin. apply Hnone. unfold stamped in Hin.
    destruct (noLandmarksTimeout s); [|exact Hin].
    cbn in Hin. by apply list_elem_of_filter in Hin as [_ Hin]. }
  destruct (cooling_run g (now + 1000) script now _ Hheld Hord Hcool)
    as (s2 & tr & E & _ & Q).
  by exists s2, tr.
Qed.

End CooldownFacts.

(** ** More on the classifier *)

Section ClassifierMore.
Import Geometry Classifier.

Lemma detect_codes (landmarks : option (list Landmark)) :
  ∃ g, detectImprovedGesture landmarks = Some g ∧ g ∈ [0; 1; 2; 3; 5; 6].
Proof.
  destruct landmarks as [l|]; [|exists 0; split; [reflexivity|set_solver]].
  unfold detectImprovedGesture.
  destruct (Z.ltb_spec (Z.of_nat (length l)) 21);
    [exists 0; split; [reflexivity|set_solver]|].
  destruct (fingerFlags_total l) as [fl Hfl]; [lia|]. rewrite Hfl.
  exists (gestureOfFlags fl). split; [reflexivity|apply gestureOfFlags_range].
Qed.

(** X1: whatever it is handed, [detectImprovedGesture] answers one of
    0, 1, 2, 3, 5, 6; the code 4 is never produced, four raised fingers
    being read as the open hand. *)
Theorem classifier_codes (landmarks : option (list Landmark)) :
  ∃ g, detectImprovedGesture landmarks = Some g ∧ g ∈ [0; 1; 2; 3; 5; 6].
Proof. apply detect_codes. Qed.

Lemma fingerFlags_agree (l l' : list Landmark) :
  (21 ≤ length l)%nat → (21 ≤ length l')%nat →
  Forall (agreeAt l l') keyIndices → fingerFlags l = fingerFlags l'.
Proof.
  intros Hl Hl' Hagree.
  do 21 (destruct l as [|? l]; [simpl in Hl; lia|]).
  do 21 (destruct l' as [|? l']; [simpl in Hl'; lia|]).
  unfold keyIndices in Hagree.
  repeat (apply Forall_cons in Hagree as [[? ?] Hagree]).
  simplify_eq/=. unfold fingerFlags, isFingerExtended. cbn.
  repeat match goal with H : ly _ = ly _ |- _ => rewrite H; clear H end.
  repeat match goal with H : lz _ = lz _ |- _ => rewrite H; clear H end.
  reflexivity.
Qed.

(** X2: the classifier looks at nothing but the height and the depth of
    the five fingertips and of the joint below each: two hand observations
    that agree there get the same code, whatever their x coordinates,
    wrists, knuckles and further entries are. *)
Theorem classifier_reads_tips_and_joints (l l' : list Landmark) :
  (21 ≤ length l)%nat → (21 ≤ length l')%nat →
  Forall (agreeAt l l') keyIndices →
  detectImprovedGesture (Some l) = detectImprovedGesture (Some l').
Proof.
  intros Hl Hl' Hagree. unfold detectImprovedGesture.
  destruct (Z.ltb_spec (Z.of_nat (length l)) 21); [lia|].
  destruct (Z.ltb_spec (Z.of_nat (length l')) 21); [lia|].
  by rewrite (fingerFlags_agree l l' Hl Hl' Hagree).
Qed.

(** X3: once a non-thumb finger is extended the thumb makes no
    difference: the code is the count of extended non-thumb fingers, 5
    standing for all four. *)
Theorem thumb_only_matters_alone (fl : FingerFlags) :
  nonThumbCount fl ≠ 0%nat →
  gestureOfFlags fl
    = (if Nat.eqb (nonThumbCount fl) 4 then 5 else Z.of_nat (nonThumbCount fl)) ∧
  gestureOfFlags fl
    = gestureOfFlags (mkFlags (negb (isThumbUp fl)) (isIndexExtended fl)
                        (isMiddleExtended fl) (isRingExtended fl) (isPinkyExtended fl)).
Proof.
  destruct fl as [[] [] [] [] []]; cbn; intros H; try done.
Qed.

End ClassifierMore.

(** ** What every run of the event loop preserves *)

Section RunInvariant.
Import Service Loop.

Variable I : State → Prop.
Variable P : Timer → Prop.
Variable Q : Effect → Prop.

Hypothesis queued_ok : ∀ s t, I s → t ∈ timers s → P t.
Hypothesis fire_keeps :
  ∀ now t s, P t → I s → I (fire now t s).1 ∧ Forall Q (fire now t s).2.
Hypothesis handle_keeps :
  ∀ now i s s' e, I s → handle now i s = Some (s', e) → I s' ∧ Forall Q e.

Lemma fireAll_keeps (now : Z) (ts : list Timer) (s : State) :
  Forall P ts → I s → I (fireAll now ts s).1 ∧ Forall Q (fireAll now ts s).2.
Proof.
  revert s. induction ts as [|t ts IH]; intros s Hts Hs; cbn [fireAll]; [by split|].
  apply Forall_cons in Hts as [Ht Hts].
  destruct (fire_keeps now t s Ht Hs) as [H1 Q1].
  destruct (fire now t s) as [s1 e1]. cbn [fst snd] in H1, Q1.
  destruct (IH s1 Hts H1) as [H2 Q2].
  destruct (fireAll now ts s1) as [s2 e2]. cbn [fst snd] in *.
  split; [done|by apply Forall_app].
Qed.

Lemma stamp_keeps (now : Z) (es : list Effect) :
  Forall Q es → Forall (λ te, Q te.2) (stamp now es).
Proof.
  unfold stamp. induction 1; cbn; constructor; done.
Qed.

Lemma advance_keeps (n : nat) (clock : Z) (s : State) :
  I s → I (advance n clock s).1 ∧ Forall (λ te, Q te.2) (advance n clock s).2.
Proof.
  revert clock s. induction n as [|n IH]; intros clock s Hs; cbn [advance]; [by split|].
  assert (Hdue : Forall P (dueAt (clock + 1) s)).
  { apply Forall_forall. intros t Hin. unfold dueAt in Hin.
    apply list_elem_of_filter in Hin as [_ Hin]. by apply (queued_ok s). }
  destruct (fireAll_keeps (clock + 1) (dueAt (clock + 1) s) s Hdue Hs) as [H1 Q1].
  destruct (fireAll (clock + 1) (dueAt (clock + 1) s) s) as [s1 e1].
  cbn [fst snd] in H1, Q1.
  destruct (IH (clock + 1) s1 H1) as [H2 Q2].
  destruct (advance n (clock + 1) s1) as [s2 tr]. cbn [fst snd] in *.
  split; [done|]. apply Forall_app. split; [by apply stamp_keeps|done].
Qed.

Lemma run_keeps (script : list (Z * Input)) (clock : Z) (s s' : State)
    (tr : list (Z * Effect)) :
  I s → run script clock s = Some (s', tr) →
  I s' ∧ Forall (λ te, Q te.2) tr.
Proof.
  revert clock s s' tr. induction script as [|[now i] script IH];
    intros clock s s' tr Hs Hrun; cbn [run] in Hrun.
  { injection Hrun as <- <-. by split. }
  destruct (now <? clock); [discriminate|].
  destruct (advance_keeps (Z.to_nat (now - clock)) clock s Hs) as [H1 Q1].
  destruct (advance (Z.to_nat (now - clock)) clock s) as [s1 tr1].
  cbn [fst snd] in H1, Q1.
  destruct (handle now i s1) as [[s2 e]|] eqn:E2; [|discriminate].
  destruct (handle_keeps now i s1 s2 e H1 E2) as [H2 Q2].
  cbn [mbind option_bind] in Hrun.
  destruct (run script now s2) as [[s3 tr3]|] eqn:E3; [|discriminate].
  destruct (IH now s2 s3 tr3 H2 E3) as [H3 Q3].
  cbn [mbind option_bind] in Hrun. injection Hrun as <- <-.
  split; [done|]. rewrite !Forall_app. split; [done|].
  split; [by apply stamp_keeps|done].
Qed.

End RunInvariant.

(** ** Invariants of the service *)

Section ServiceInvariants.
Import Classifier Service Loop Scenario.

Ltac open_service :=
  unfold runCallback, handle, initialize, noLandmarksRestart, stuckCheck,
    initializeCamera, calibrationEnd, cooldownReset, startCalibration, stopCamera,
    cameraStartError, setupStuckDetection, onFrame, setTimeout, setInterval,
    schedule, clearTimeout in *.

Lemma Some_pair_fst {A B : Type} (p : A * B) (a : A) (b : B) :
  Some p = Some (a, b) → a = p.1.
Proof. by intros [= ->]. Qed.

Lemma Some_pair_snd {A B : Type} (p : A * B) (a : A) (b : B) :
  Some p = Some (a, b) → b = p.2.
Proof. by intros [= ->]. Qed.

Lemma fire_unfold (now : Z) (t : Timer) (s : State) :
  fire now t s = (s, []) ∨
  ∃ ts, fire now t s = runCallback now (action t) (set_timers ts s).
Proof.
  unfold fire. destruct (pending (tid t) s); [right|by left].
  destruct (period t); eexists; reflexivity.
Qed.

(** [initialize] at work: the camera is created and started, and one
    more stuck-detection interval is queued, whatever was queued before. *)
Lemma initialize_unfold (now : Z) (ctx2d : bool) (s : State) :
  initialize now ctx2d s
    = (mkState true true ctx2d true true (isCalibrating s) true
         (lastGestureDetected s) (gestureConfidence s) (cameraStartAttempts s + 1)
         (lastFrameProcessed s) (Some (nextTimer s)) (lastLandmarkTime s)
         (noLandmarksTimeout s)
         (timers s ++ [mkTimer (nextTimer s) (now + 2000) (Some 2000) StuckCheck])
         (S (nextTimer s)),
       [CameraStart]).
Proof. reflexivity. Qed.

(** *** The codes that reach the callback *)

Lemma detect_positive_codes (landmarks : option (list Landmark)) (g : Z) :
  detectImprovedGesture landmarks = Some g → (g >? 0) = true → g ∈ [1; 2; 3; 5; 6].
Proof.
  intros Hd Hpos. destruct (detect_codes landmarks) as (g' & Hg' & Hin).
  rewrite Hd in Hg'. injection Hg' as <-.
  apply Z.gtb_lt in Hpos.
  rewrite !elem_of_cons, elem_of_nil in Hin. rewrite !elem_of_cons, elem_of_nil. lia.
Qed.

Lemma runCallback_emittable (now : Z) (cb : Callback) (s : State) :
  Forall emittable (runCallback now cb s).2.
Proof.
  destruct cb; open_service; repeat case_match; cbn; repeat constructor.
Qed.

Lemma onHand_emittable (now : Z) (l : list Landmark) (s s' : State) (e : list Effect) :
  onHand now l s = Some (s', e) → Forall emittable e.
Proof.
  unfold onHand.
  destruct (isCalibrating s); [intros [= <- <-]; constructor|].
  destruct (gestureCallback s); [|intros [= <- <-]; constructor].
  destruct (detectImprovedGesture (Some l)) as [g|] eqn:Hd; [|discriminate].
  cbn [mbind option_bind].
  destruct (g >? 0) eqn:Hpos; [|intros [= <- <-]; constructor].
  intros [= H]. pose proof (processGesture_effects now g s) as Pe.
  rewrite H in Pe. cbn [snd] in Pe. subst e.
  destruct (_ && _); [|constructor].
  constructor; [exact (detect_positive_codes _ _ Hd Hpos)|constructor].
Qed.

Lemma onHands_emittable (now : Z) (hs : list (list Landmark)) (s s' : State)
    (e : list Effect) :
  onHands now hs s = Some (s', e) → Forall emittable e.
Proof.
  revert s e. induction hs as [|l hs IH]; intros s e; cbn [onHands].
  - intros [= <- <-]. constructor.
  - destruct (onHand now l s) as [[s1 e1]|] eqn:E1; [|discriminate].
    cbn [mbind option_bind].
    destruct (onHands now hs s1) as [[s2 e2]|] eqn:E2; [|discriminate].
    cbn [mbind option_bind]. intros [= <- <-]. apply Forall_app. split.
    + exact (onHand_emittable _ _ _ _ _ E1).
    + exact (IH _ _ E2).
Qed.

Lemma handle_emittable (now : Z) (i : Input) (s s' : State) (e : list Effect) :
  handle now i s = Some (s', e) → Forall emittable e.
Proof.
  destruct i as [ctx| | | | |r].
  { cbn [handle]. rewrite initialize_unfold. intros [= <- <-]. repeat constructor. }
  1-4: open_service; repeat case_match; intros [= <- <-]; repeat constructor.
  change (onResults now r s = Some (s', e) → Forall emittable e).
  rewrite onResults_unfold.
  destruct (negb (canvasReady s)); [intros [= <- <-]; constructor|].
  destruct (handsDetected r); [apply onHands_emittable|intros [= <- <-]; constructor].
Qed.

Lemma fire_emittable (now : Z) (t : Timer) (s : State) :
  Forall emittable (fire now t s).2.
Proof.
  destruct (fire_unfold now t s) as [->|[ts ->]]; [constructor|].
  apply runCallback_emittable.
Qed.

(** X5: whatever reaches the service and whenever, the codes it hands to
    its callback are among 1, 2, 3, 5 and 6: never 0, never 4, never
    anything the game would have to reject. *)
Theorem emitted_codes (script : list (Z * Input)) (clock : Z) (s s' : State)
    (tr : list (Z * Effect)) :
  run script clock s = Some (s', tr) →
  ∀ t g, (t, g) ∈ gestureEvents tr → g ∈ [1; 2; 3; 5; 6].
Proof.
  intros Hrun t g Hin.
  assert (HQ : Forall (λ te, emittable te.2) tr).
  { eapply (run_keeps (λ _, True) (λ _, True) emittable); [done| | |exact I|exact Hrun].
    - intros now u s0 _ _. split; [done|apply fire_emittable].
    - intros now i s0 s1 e _ Hh. split; [done|exact (handle_emittable _ _ _ _ _ Hh)]. }
  unfold gestureEvents in Hin.
  apply list_elem_of_omap in Hin as ([t' e] & Hte & He).
  rewrite Forall_forall in HQ. specialize (HQ _ Hte). cbn in HQ, He.
  destruct e; try discriminate. injection He as <- <-. exact HQ.
Qed.

(** *** The streaks *)

Lemma debouncerOk_ext (s s' : State) :
  gestureConfidence s' = gestureConfidence s →
  lastGestureDetected s' = lastGestureDetected s →
  debouncerOk s → debouncerOk s'.
Proof. unfold debouncerOk. by intros -> ->. Qed.

Lemma debouncerOk_empty (s : State) :
  gestureConfidence s = ∅ → debouncerOk s.
Proof.
  intros He. unfold debouncerOk. rewrite He.
  repeat split; intros *; by rewrite lookup_empty.
Qed.

Lemma debouncerOk_processGesture (now gesture : Z) (s : State) :
  debouncerOk s → debouncerOk (processGestureWithConfidence now gesture s).1.
Proof.
  intros (Hpos & Hlast & Hone). unfold debouncerOk.
  rewrite processGesture_confidence, processGesture_last.
  assert (Hnext : 1 ≤ nextStreak gesture s).
  { unfold nextStreak. destruct (gestureConfidence s !! gesture) as [v|] eqn:E; cbn.
    - specialize (Hpos _ _ E). lia.
    - lia. }
  assert (Hother : ∀ k v, k ≠ gesture →
            <[gesture:=nextStreak gesture s]> (resetOthers gesture (gestureConfidence s)) !! k
              = Some v → v = 0).
  { intros k v Hk. rewrite lookup_insert_ne, resetOthers_lookup by done.
    rewrite bool_decide_eq_false_2 by done.
    destruct (gestureConfidence s !! k); cbn; congruence. }
  split; [|split].
  - intros k v Hkv. destruct (decide (k = gesture)) as [->|Hk].
    + rewrite lookup_insert_eq in Hkv. injection Hkv as <-. lia.
    + rewrite (Hother k v Hk Hkv). lia.
  - intros k v Hkv Hv. destruct (decide (k = gesture)) as [->|Hk].
    + rewrite lookup_insert_eq in Hkv. injection Hkv as <-.
      unfold fires, gestureThreshold.
      destruct (Z.geb_spec (nextStreak gesture s) 3); [|lia].
      destruct (Z.eqb_spec (lastGestureDetected s) gesture); cbn; done.
    + rewrite (Hother k v Hk Hkv) in Hv. lia.
  - intros k1 k2 v1 v2 H1 H2 Hv1 Hv2.
    destruct (decide (k1 = gesture)) as [->|Hk1];
      [|by rewrite (Hother k1 v1 Hk1 H1) in Hv1].
    destruct (decide (k2 = gesture)) as [->|Hk2];
      [done|by rewrite (Hother k2 v2 Hk2 H2) in Hv2].
Qed.

Lemma debouncerOk_runCallback (now : Z) (cb : Callback) (s : State) :
  debouncerOk s → debouncerOk (runCallback now cb s).1.
Proof.
  intros Hs. destruct cb; [by apply debouncerOk_empty|..];
    (apply (debouncerOk_ext s); [| |exact Hs]);
    open_service; repeat case_match; reflexivity.
Qed.

Lemma debouncerOk_fire (now : Z) (t : Timer) (s : State) :
  debouncerOk s → debouncerOk (fire now t s).1.
Proof.
  intros Hs. destruct (fire_unfold now t s) as [->|[ts ->]]; [done|].
  apply debouncerOk_runCallback. by apply (debouncerOk_ext s).
Qed.

Lemma debouncerOk_onHand (now : Z) (l : list Landmark) (s s' : State) (e : list Effect) :
  onHand now l s = Some (s', e) → debouncerOk s → debouncerOk s'.
Proof.
  unfold onHand.
  destruct (isCalibrating s); [by intros [= <- <-]|].
  destruct (gestureCallback s); [|by intros [= <- <-]].
  destruct (detectImprovedGesture (Some l)) as [g|]; [|discriminate].
  cbn [mbind option_bind]. destruct (g >? 0); [|by intros [= <- <-]].
  intros [= H] Hs. pose proof (debouncerOk_processGesture now g s Hs) as P.
  by rewrite H in P.
Qed.

Lemma debouncerOk_onHands (now : Z) (hs : list (list Landmark)) (s s' : State)
    (e : list Effect) :
  onHands now hs s = Some (s', e) → debouncerOk s → debouncerOk s'.
Proof.
  revert s e. induction hs as [|l hs IH]; intros s e; cbn [onHands].
  - by intros [= <- <-].
  - destruct (onHand now l s) as [[s1 e1]|] eqn:E1; [|discriminate].
    cbn [mbind option_bind].
    destruct (onHands now hs s1) as [[s2 e2]|] eqn:E2; [|discriminate].
    cbn [mbind option_bind]. intros [= <- <-] Hs.
    eapply IH; [exact E2|]. by eapply debouncerOk_onHand.
Qed.

Lemma debouncerOk_handle (now : Z) (i : Input) (s s' : State) (e : list Effect) :
  handle now i s = Some (s', e) → debouncerOk s → debouncerOk s'.
Proof.
  destruct i as [ctx| | | | |r].
  - cbn [handle]. rewrite initialize_unfold. intros [= <- <-].
    by apply debouncerOk_ext.
  - cbn [handle]. intros [= <- <-] _. by apply debouncerOk_empty.
  - cbn [handle]. intros H. rewrite (Some_pair_fst _ _ _ H).
    apply debouncerOk_ext; open_service; repeat case_match; reflexivity.
  - cbn [handle]. intros H. rewrite (Some_pair_fst _ _ _ H).
    apply debouncerOk_ext; open_service; repeat case_match; reflexivity.
  - cbn [handle]. intros [= <- <-].
    apply debouncerOk_ext; open_service; repeat case_match; reflexivity.
  - change (onResults now r s = Some (s', e) → debouncerOk s → debouncerOk s').
    rewrite onResults_unfold. intros Hr Hs.
    assert (Hst : debouncerOk (stamped now s)).
    { destruct (stamped_fields now s) as (Hc & Hl & _). by apply (debouncerOk_ext s). }
    destruct (negb (canvasReady s)); [by injection Hr as <- <-|].
    destruct (handsDetected r); [by eapply debouncerOk_onHands|].
    injection Hr as <- <-. by apply (debouncerOk_ext (stamped now s)).
Qed.

(** X6: in every state the service can reach from its construction, no
    streak is negative, at most one code has a streak going, and a streak
    of three or more belongs to the last-fired code; so a frame fires
    exactly when it is the third of its streak. *)
Theorem fires_on_third_frame (script : list (Z * Input)) (clock : Z) (s : State)
    (tr : list (Z * Effect)) :
  run script clock fresh = Some (s, tr) →
  debouncerOk s ∧ ∀ g, fires g s = true → nextStreak g s = 3.
Proof.
  intros Hrun.
  assert (Hs : debouncerOk s).
  { eapply (run_keeps debouncerOk (λ _, True) (λ _, True)); [done| | | |exact Hrun].
    - intros now t s0 _ H0. split; [by apply debouncerOk_fire|].
      apply Forall_forall. done.
    - intros now i s0 s1 e H0 Hh. split; [by eapply debouncerOk_handle|].
      apply Forall_forall. done.
    - by apply debouncerOk_empty. }
  split; [exact Hs|]. intros g Hf. destruct Hs as (Hpos & Hlast & _).
  unfold fires, gestureThreshold in Hf. apply andb_true_iff in Hf as [Hge Hne].
  apply Z.geb_le in Hge. apply negb_true_iff, Z.eqb_neq in Hne.
  unfold nextStreak in *.
  destruct (gestureConfidence s !! g) as [v|] eqn:E; cbn in *; [|lia].
  destruct (Z.le_gt_cases 3 v) as [Hv|Hv]; [|lia].
  by destruct Hne; apply (Hlast g v).
Qed.

(** *** The no-landmarks timeout *)

Lemma timersOk_intro (s : State) :
  (∀ t, t ∈ timers s → action t = NoLandmarksRestart →
        noLandmarksTimeout s = Some (tid t) ∧ period t = None) →
  timersOk s.
Proof.
  intros H. split; intros t Hin Ha; by destruct (H t Hin Ha).
Qed.

Lemma timersOk_elim (s : State) (t : Timer) :
  timersOk s → t ∈ timers s → action t = NoLandmarksRestart →
  noLandmarksTimeout s = Some (tid t) ∧ period t = None.
Proof.
  intros [H1 H2] Hin Ha. split; [by apply H1|by apply H2].
Qed.

Lemma timersOk_sub (s s' : State) :
  (∀ t, t ∈ timers s' → action t = NoLandmarksRestart → t ∈ timers s) →
  noLandmarksTimeout s' = noLandmarksTimeout s →
  timersOk s → timersOk s'.
Proof.
  intros Hsub Hn Hs. apply timersOk_intro. intros t Hin Ha. rewrite Hn.
  apply (timersOk_elim s t Hs); [by apply Hsub|done].
Qed.

Lemma timersOk_none (s : State) :
  (∀ t, t ∈ timers s → action t ≠ NoLandmarksRestart) → timersOk s.
Proof.
  intros H. apply timersOk_intro. intros t Hin Ha. by destruct (H t Hin).
Qed.

Lemma timersOk_cleared (s : State) :
  timersOk s →
  ∀ t, t ∈ timers (match noLandmarksTimeout s with
                   | Some id => set_noLandmarksTimeout None (clearTimeout id s)
                   | None => s
                   end) → action t ≠ NoLandmarksRestart.
Proof.
  intros Hs t Hin Ha. destruct (noLandmarksTimeout s) as [id|] eqn:E.
  - cbn in Hin. apply list_elem_of_filter in Hin as [Hne Hin].
    destruct (timersOk_elim s t Hs Hin Ha) as [Hid _]. congruence.
  - destruct (timersOk_elim s t Hs Hin Ha) as [Hid _]. congruence.
Qed.

Lemma timersOk_runCallback (now : Z) (cb : Callback) (s : State) :
  timersOk s → timersOk (runCallback now cb s).1.
Proof.
  intros Hs. destruct cb; cbn [runCallback fst].
  - by apply (timersOk_sub s).
  - apply (timersOk_sub s); [|done|done]. cbn. intros t Hin Ha.
    apply elem_of_app in Hin as [Hin|Hin]; [done|].
    apply list_elem_of_singleton in Hin as ->. discriminate.
  - unfold stuckCheck. destruct (_ && _); [|done]. cbn [fst].
    apply timersOk_none. unfold setTimeout, schedule. cbn [snd].
    intros t Hin. cbn in Hin. apply elem_of_app in Hin as [Hin|Hin].
    + by apply (timersOk_cleared s Hs).
    + apply list_elem_of_singleton in Hin as ->. discriminate.
  - by apply (timersOk_sub s).
  - unfold initializeCamera. cbn -[Z.add].
    destruct (videoElement s); by apply (timersOk_sub s).
Qed.

Lemma timersOk_fire (now : Z) (t : Timer) (s : State) :
  oneShot t → timersOk s → timersOk (fire now t s).1.
Proof.
  intros Ht Hs. unfold fire. destruct (pending (tid t) s); [|done].
  apply timersOk_runCallback.
  assert (Hc : timersOk (clearTimeout (tid t) s)).
  { apply (timersOk_sub s); [|done|done]. cbn. intros u Hin _.
    by apply list_elem_of_filter in Hin as [_ Hin]. }
  destruct (period t) as [p|] eqn:Ep; [|done].
  apply (timersOk_sub (clearTimeout (tid t) s)); [|done|done].
  cbn. intros u Hin Ha. apply elem_of_app in Hin as [Hin|Hin]; [done|].
  apply list_elem_of_singleton in Hin as ->. cbn in Ha.
  specialize (Ht Ha). congruence.
Qed.

Lemma timersOk_processGesture (now gesture : Z) (s : State) :
  timersOk s → timersOk (processGestureWithConfidence now gesture s).1.
Proof.
  intros Hs. apply (timersOk_sub s); [| |done].
  - rewrite processGesture_timers. destruct (fires gesture s); [|done].
    intros t Hin Ha. apply elem_of_app in Hin as [Hin|Hin]; [done|].
    apply list_elem_of_singleton in Hin as ->. discriminate.
  - apply processGesture_watchdog.
Qed.

Lemma timersOk_onHand (now : Z) (l : list Landmark) (s s' : State) (e : list Effect) :
  onHand now l s = Some (s', e) → timersOk s → timersOk s'.
Proof.
  unfold onHand.
  destruct (isCalibrating s); [by intros [= <- <-]|].
  destruct (gestureCallback s); [|by intros [= <- <-]].
  destruct (detectImprovedGesture (Some l)) as [g|]; [|discriminate].
  cbn [mbind option_bind]. destruct (g >? 0); [|by intros [= <- <-]].
  intros H Hs. rewrite (Some_pair_fst _ _ _ H). by apply timersOk_processGesture.
Qed.

Lemma timersOk_onHands (now : Z) (hs : list (list Landmark)) (s s' : State)
    (e : list Effect) :
  onHands now hs s = Some (s', e) → timersOk s → timersOk s'.
Proof.
  revert s e. induction hs as [|l hs IH]; intros s e; cbn [onHands].
  - by intros [= <- <-].
  - destruct (onHand now l s) as [[s1 e1]|] eqn:E1; [|discriminate].
    cbn [mbind option_bind].
    destruct (onHands now hs s1) as [[s2 e2]|] eqn:E2; [|discriminate].
    cbn [mbind option_bind]. intros [= <- <-] Hs.
    eapply IH; [exact E2|]. by eapply timersOk_onHand.
Qed.

Lemma timersOk_stamped (now : Z) (s : State) :
  timersOk s → timersOk (stamped now s).
Proof.
  intros Hs. apply timersOk_none. intros t Hin.
  apply (timersOk_cleared s Hs). unfold stamped in Hin.
  by destruct (noLandmarksTimeout s).
Qed.

Lemma timersOk_handle (now : Z) (i : Input) (s s' : State) (e : list Effect) :
  handle now i s = Some (s', e) → timersOk s → timersOk s'.
Proof.
  destruct i as [ctx| | | | |r]; cbn [handle].
  - rewrite initialize_unfold. intros [= <- <-]. apply timersOk_sub; [|done].
    cbn. intros t Hin Ha. apply elem_of_app in Hin as [Hin|Hin]; [done|].
    apply list_elem_of_singleton in Hin as ->. discriminate.
  - intros [= <- <-]. apply timersOk_sub; [|done].
    cbn. intros t Hin Ha. apply elem_of_app in Hin as [Hin|Hin]; [done|].
    apply list_elem_of_singleton in Hin as ->. discriminate.
  - intros H Hs. rewrite (Some_pair_fst _ _ _ H). unfold stopCamera. cbn [fst].
    apply timersOk_none. intros t Hin.
    assert (H1 : timersOk (match stuckDetectionTimer s with
                           | Some id => set_stuckDetectionTimer None (clearTimeout id s)
                           | None => s
                           end)).
    { destruct (stuckDetectionTimer s) as [id|]; [|done].
      apply (timersOk_sub s); [|done|done]. cbn. intros u Hu _.
      by apply list_elem_of_filter in Hu as [_ Hu]. }
    exact (timersOk_cleared _ H1 t Hin).
  - intros H Hs. rewrite (Some_pair_fst _ _ _ H). unfold onFrame.
    destruct (Qle_bool _ _); [done|]. by apply (timersOk_sub s).
  - intros [= <- <-] Hs. unfold cameraStartError.
    destruct (_ <? _); [|done]. apply (timersOk_sub s); [|done|done].
    cbn. intros t Hin Ha. apply elem_of_app in Hin as [Hin|Hin]; [done|].
    apply list_elem_of_singleton in Hin as ->. discriminate.
  - rewrite onResults_unfold. intros Hr Hs.
    pose proof (timersOk_stamped now s Hs) as Hst.
    destruct (negb (canvasReady s)); [by injection Hr as <- <-|].
    destruct (handsDetected r); [by eapply timersOk_onHands|].
    injection Hr as <- <-. apply timersOk_intro. cbn. intros t Hin Ha.
    apply elem_of_app in Hin as [Hin|Hin].
    + destruct Hst as [Htr _]. specialize (Htr t Hin Ha).
      destruct (stamped_fields now s) as (_ & _ & _ & _ & _ & _ & Hn). congruence.
    + apply list_elem_of_singleton in Hin as ->. done.
Qed.

Lemma timersOk_fresh : timersOk fresh.
Proof. apply timersOk_none. intros t Hin. by apply elem_of_nil in Hin. Qed.

(** X8: at any point of the service's life, a result of the pose model
    leaves no no-landmarks timeout pending but the one it arms itself, 5
    seconds ahead, when it shows no hand: the timeout armed by an earlier
    result never survives the next one, with or without a hand. *)
Theorem no_landmarks_timeout_rearmed
    (script : list (Z * Input)) (clock : Z) (s : State) (tr : list (Z * Effect))
    (now : Z) (r : option (list (list Landmark))) (s' : State) (e : list Effect) :
  run script clock fresh = Some (s, tr) →
  onResults now r s = Some (s', e) →
  ∀ t, t ∈ timers s' → action t = NoLandmarksRestart →
       due t = now + 5000 ∧ handsDetected r = false ∧
       noLandmarksTimeout s' = Some (tid t).
Proof.
  intros Hrun Hr t Hin Ha.
  assert (Hs : timersOk s).
  { eapply (run_keeps timersOk oneShot (λ _, True)); [| | | |exact Hrun].
    - intros s0 u [_ H0] Hu. by apply H0.
    - intros now' u s0 Hu H0. split; [by apply timersOk_fire|].
      apply Forall_forall. done.
    - intros now' i s0 s1 e' H0 Hh. split; [by eapply timersOk_handle|].
      apply Forall_forall. done.
    - exact timersOk_fresh. }
  destruct (onResults_rearms now r s s' e (proj1 Hs) Hr t Hin Ha) as [Hd Hh].
  split; [done|]. split; [done|].
  assert (Hs' : timersOk s') by exact (timersOk_handle now (Results r) s s' e Hr Hs).
  by destruct (timersOk_elim s' t Hs' Hin Ha).
Qed.

(** *** The attempt counter *)

Lemma attempts_runCallback (n now : Z) (cb : Callback) (s : State) :
  n ≤ cameraStartAttempts s → n ≤ cameraStartAttempts (runCallback now cb s).1.
Proof.
  intros Hs. destruct cb; open_service; repeat case_match; cbn; lia.
Qed.

Lemma attempts_onHands (now : Z) (hs : list (list Landmark)) (s s' : State)
    (e : list Effect) :
  onHands now hs s = Some (s', e) → cameraStartAttempts s' = cameraStartAttempts s.
Proof.
  revert s e. induction hs as [|l hs IH]; intros s e; cbn [onHands].
  - by intros [= <- <-].
  - destruct (onHand now l s) as [[s1 e1]|] eqn:E1; [|discriminate].
    cbn [mbind option_bind].
    destruct (onHands now hs s1) as [[s2 e2]|] eqn:E2; [|discriminate].
    cbn [mbind option_bind]. intros [= <- <-]. rewrite (IH _ _ E2).
    unfold onHand in E1.
    destruct (isCalibrating s); [by injection E1 as <- <-|].
    destruct (gestureCallback s); [|by injection E1 as <- <-].
    destruct (detectImprovedGesture (Some l)) as [g|]; [|discriminate].
    cbn [mbind option_bind] in E1. destruct (g >? 0); [|by injection E1 as <- <-].
    rewrite (Some_pair_fst _ _ _ E1). unfold processGestureWithConfidence.
    by destruct (_ && _).
Qed.

Lemma attempts_handle (n now : Z) (i : Input) (s s' : State) (e : list Effect) :
  handle now i s = Some (s', e) →
  n ≤ cameraStartAttempts s → n ≤ cameraStartAttempts s'.
Proof.
  destruct i as [ctx| | | | |r]; cbn [handle].
  - rewrite initialize_unfold. intros [= <- <-]. cbn. lia.
  - by intros [= <- <-].
  - intros H. rewrite (Some_pair_fst _ _ _ H).
    open_service; repeat case_match; cbn; done.
  - intros H. rewrite (Some_pair_fst _ _ _ H).
    open_service; repeat case_match; cbn; done.
  - intros [= <- <-]. open_service; repeat case_match; cbn; done.
  - rewrite onResults_unfold.
    assert (Hst : cameraStartAttempts (stamped now s) = cameraStartAttempts s).
    { unfold stamped. by destruct (noLandmarksTimeout s). }
    destruct (negb (canvasReady s)); [intros [= <- <-]; by rewrite Hst|].
    destruct (handsDetected r).
    + intros Hr. by rewrite (attempts_onHands _ _ _ _ _ Hr), Hst.
    + intros [= <- <-]. cbn. by rewrite Hst.
Qed.

(** X9: the attempt counter only ever grows: nothing in the service
    resets it, so once five camera starts have been made in its life, be
    they first starts, retries or watchdog restarts, a failing start is
    never retried again. *)
Theorem attempts_never_reset (script : list (Z * Input)) (clock : Z) (s s' : State)
    (tr : list (Z * Effect)) (now : Z) :
  run script clock s = Some (s', tr) →
  cameraStartAttempts s ≤ cameraStartAttempts s' ∧
  (maxCameraAttempts ≤ cameraStartAttempts s → cameraStartError now s' = s').
Proof.
  intros Hrun.
  assert (Hmono : cameraStartAttempts s ≤ cameraStartAttempts s').
  { eapply (run_keeps (λ u, cameraStartAttempts s ≤ cameraStartAttempts u)
              (λ _, True) (λ _, True)); [done| | | |exact Hrun].
    - intros now' t s0 _ H0. split; [|apply Forall_forall; done].
      destruct (fire_unfold now' t s0) as [->|[ts ->]]; [done|].
      by apply attempts_runCallback.
    - intros now' i s0 s1 e H0 Hh. split; [|apply Forall_forall; done].
      by eapply attempts_handle.
    - cbn. lia. }
  split; [exact Hmono|]. intros Hmax. unfold cameraStartError.
  destruct (Z.ltb_spec (cameraStartAttempts s') maxCameraAttempts); [lia|done].
Qed.

End ServiceInvariants.

(** ** More on single calls of the service *)

Section ServiceMore.
Import Classifier Service Loop Scenario.

Lemma onHands_muted (now : Z) (hs : list (list Landmark)) (s : State) :
  isCalibrating s = true ∨ gestureCallback s = false →
  onHands now hs s = Some (s, []).
Proof.
  intros Hm. induction hs as [|l hs IH]; [reflexivity|].
  cbn [onHands]. unfold onHand at 1.
  destruct Hm as [Hm|Hm]; rewrite Hm; [|destruct (isCalibrating s)];
    cbn [mbind option_bind]; rewrite IH; reflexivity.
Qed.

(** X4: while the service is calibrating, has no callback or has no
    canvas to draw on, a result of the pose model emits nothing and leaves
    the streaks and the last-fired code alone, whatever hands it shows. *)
Theorem muted_frame (now : Z) (r : option (list (list Landmark))) (s : State) :
  isCalibrating s = true ∨ gestureCallback s = false ∨ canvasReady s = false →
  ∃ s', onResults now r s = Some (s', []) ∧
    gestureConfidence s' = gestureConfidence s ∧
    lastGestureDetected s' = lastGestureDetected s.
Proof.
  intros Hm. rewrite onResults_unfold.
  destruct (stamped_fields now s) as (Hconf & Hlast & Hcb & Hcal & _).
  destruct (canvasReady s) eqn:Hc; cbn [negb]; [|by eexists].
  destruct (handsDetected r); [|eexists; split; [reflexivity|done]].
  rewrite onHands_muted; [by eexists|].
  rewrite Hcal, Hcb. destruct Hm as [?|[?|?]]; [by left|by right|done].
Qed.

(** X10: [stopCamera] cancels the stuck-detection interval and the
    no-landmarks timeout it holds the handles of, and stops the camera if
    there is one; every other pending timer (a cool-down, the end of a
    calibration, a camera re-initialisation) stays queued. *)
Theorem stopCamera_cancels_watchdogs_only (s : State) :
  noLandmarksTracked s →
  stuckDetectionTimer (stopCamera s).1 = None ∧
  noLandmarksTimeout (stopCamera s).1 = None ∧
  (stopCamera s).2 = (if camera s then [CameraStop] else []) ∧
  (∀ t, t ∈ timers (stopCamera s).1 →
        t ∈ timers s ∧ action t ≠ NoLandmarksRestart ∧
        Some (tid t) ≠ stuckDetectionTimer s) ∧
  (∀ t, t ∈ timers s → Some (tid t) ≠ stuckDetectionTimer s →
        Some (tid t) ≠ noLandmarksTimeout s → t ∈ timers (stopCamera s).1).
Proof.
  intros Htr. unfold stopCamera. cbn [fst snd].
  destruct (stuckDetectionTimer s) as [i|] eqn:Ei;
    destruct (noLandmarksTimeout s) as [j|] eqn:Ej;
    cbn; rewrite ?Ei, ?Ej; cbn; rewrite ?Ei, ?Ej.
  all: split; [reflexivity|]; split; [reflexivity|]; split; [reflexivity|].
  all: split; intros t; rewrite ?list_elem_of_filter.
  all: intros; repeat match goal with H : _ ∧ _ |- _ => destruct H end.
  all: repeat split; try done; try congruence.
  all: intros Ha;
    match goal with Hin : ?u ∈ timers _ |- _ => specialize (Htr u Hin Ha) end;
    congruence.
Qed.

(** X11: the limiter is transparent to a slow camera: when every frame
    comes at least 67 ms after the one before (and after the last one
    processed), each of them is sent on to the pose model. *)
Theorem slow_camera_loses_nothing (arrivals : list Z) (s : State) :
  videoElement s = true → hands s = true →
  spaced 67 (lastFrameProcessed s) arrivals →
  (onFrames arrivals s).2 = arrivals.
Proof.
  revert s. induction arrivals as [|now arrivals IH]; intros s Hv Hh Hsp; [reflexivity|].
  destruct Hsp as [Hgap Hsp]. cbn [onFrames].
  rewrite (onFrame_processed now s) by lia. rewrite Hv, Hh. cbn [andb].
  specialize (IH (set_lastFrameProcessed now s) Hv Hh Hsp).
  destruct (onFrames arrivals (set_lastFrameProcessed now s)) as [s' sent].
  cbn in IH |- *. by rewrite IH.
Qed.

End ServiceMore.

(** ** More on the gate *)

Section GateMore.
Import Detector.

(** X12: until the calibration lock is released the gate lets nothing
    through and keeps no trace of what was reported. *)
Theorem locked_gate_passes_nothing (es : list Event) (g : Gate) :
  calibrationLockRef g = true → reportsOnly es → feed es g = (g, []).
Proof.
  intros Hl. induction es as [|e es IH]; intros Hes; [reflexivity|].
  destruct (Hes e) as (now & gesture & disabled & ->); [left|].
  cbn [feed step]. unfold throttledGestureDetection. rewrite Hl.
  assert (IH' : feed es g = (g, [])) by (apply IH; intros e' He'; apply Hes; by right).
  destruct disabled; by rewrite IH'.
Qed.

Lemma feed_nothing_keeps_time (es : list Event) (g : Gate) :
  (feed es g).2 = [] →
  lastGestureTimeRef (feed es g).1 = lastGestureTimeRef g.
Proof.
  revert g. induction es as [|e es IH]; intros g; [reflexivity|].
  cbn [feed]. destruct e as [now gesture disabled|b]; cbn [step].
  - rewrite throttled_accepts. destruct (accepts disabled now gesture g).
    + destruct (feed es _) as [g' ds]. discriminate.
    + specialize (IH g). destruct (feed es g) as [g' ds]. exact IH.
  - specialize (IH (mkGate (lastGestureTimeRef g) b (isProcessing g))).
    destruct (feed es _) as [g' ds]. exact IH.
Qed.

(** X13: the gate throttles, it does not debounce: reports it turns away
    do not push the 500 ms window forward, so a positive code arriving
    more than 500 ms after the last accepted one is let through, enabled
    and unlocked, however many were turned away in between. *)
Theorem rejected_reports_keep_window (es : list Event) (g : Gate) (now gesture : Z) :
  (feed es g).2 = [] → calibrationLockRef (feed es g).1 = false →
  500 < now - lastGestureTimeRef g → 0 < gesture →
  throttledGestureDetection false now gesture (feed es g).1
    = (mkGate now false true, [mkDelivery (now + 200) gesture]).
Proof.
  intros Hnone Hlock Hgap Hpos. rewrite throttled_accepts.
  unfold accepts. rewrite Hlock, (feed_nothing_keeps_time es g Hnone).
  destruct (Z.gtb_spec (now - lastGestureTimeRef g) 500); [|lia].
  destruct (Z.gtb_spec gesture 0); [reflexivity|lia].
Qed.

End GateMore.

(** ** The cool-down, when nothing interferes *)

Section CooldownMore.
Import Classifier Service Loop Scenario.

(** X7: when a frame fires [g] while no earlier cool-down is pending,
    then however the pose is held during the following second, the service
    emits no further event and [g] stays the last-fired code. *)
Theorem cooldown_in_isolation (now g : Z) (l : list Landmark) (s s1 : State)
    (ev : list Effect) (script : list (Z * Input)) :
  (∀ t, t ∈ timers s → action t ≠ CooldownReset) →
  onResults now (Some [l]) s = Some (s1, ev) → GestureEvent g ∈ ev →
  (∀ t i, (t, i) ∈ script → t < now + 1000 ∧ holds g i) →
  inOrder now script →
  ∃ s2 tr, run script now s1 = Some (s2, tr) ∧ gestureEvents tr = [] ∧
           lastGestureDetected s2 = g.
Proof.
  intros Hnone Hr Hev Hheld Hord.
  destruct (onResults_fires _ _ _ _ _ _ Hr Hev) as [-> Hf].
  assert (Hcool : coolingDown g (now + 1000)
                    (processGestureWithConfidence now g (stamped now s)).1).
  { apply firing_starts_cooldown; [|done].
    intros t Hin. apply Hnone. unfold stamped in Hin.
    destruct (noLandmarksTimeout s); [|exact Hin].
    cbn in Hin. by apply list_elem_of_filter in Hin as [_ Hin]. }
  destruct (cooling_run g (now + 1000) script now _ Hheld Hord Hcool)
    as (s2 & tr & E & [Hl _] & Q).
  by exists s2, tr.
Qed.

(** X20: once the cool-down callback has run the debouncer starts from
    nothing: of the frames of a held nonzero code that follow, the first
    two do not fire and the third does. *)
Theorem third_frame_after_reset (t1 t2 g : Z) (s : State) :
  g ≠ 0 →
  fires g (cooldownReset s) = false ∧
  fires g (processGestureWithConfidence t1 g (cooldownReset s)).1 = false ∧
  fires g (processGestureWithConfidence t2 g
             (processGestureWithConfidence t1 g (cooldownReset s)).1).1 = true.
Proof.
  intros Hg. exact (refires_after_cooldown t1 t2 g s Hg).
Qed.

End CooldownMore.

(** ** The game context *)

Section GameFacts.
Import Game.

Variable out : Z → Z → bool.            (* isPlayerOut *)
Variable over : Z → Z → option Z → bool. (* isGameOver *)



(** X15: a wicket in the first innings (no target yet) sets the target to
    the batting side's score plus one, opens the second innings with the
    roles swapped and the ball count back at 0, leaves both scores alone,
    and ends with the out flag lowered again. *)
Theorem first_innings_wicket (c : Context) (userMove aiMove : Z) :
  1 ≤ userMove ≤ 6 → out userMove aiMove = true → target c = None →
  let c' := afterChoice out over c userMove aiMove in
  target c' = Some ((if userBatting c then playerScore c else aiScore c) + 1) ∧
  innings c' = 2 ∧ ballsPlayed c' = 0 ∧
  userBatting c' = negb (userBatting c) ∧
  gameState c' = (if userBatting c then Bowling else Batting) ∧
  isOut c' = false ∧
  playerScore c' = playerScore c ∧ aiScore c' = aiScore c ∧
  playerChoice c' = Some userMove ∧ aiChoice c' = Some aiMove.
Proof.
  intros Hm Hout Ht. unfold afterChoice, makeChoice.
  destruct (Z.ltb_spec userMove 1), (Z.gtb_spec userMove 6); try lia.
  cbn [orb]. change (default 0 (Some aiMove)) with aiMove. rewrite Hout. unfold handlePlayerOut.
  destruct (userBatting c) eqn:Hb;
    [unfold handleBattingPlayerOut|unfold handleBowlingPlayerOut];
    rewrite Ht; cbn; repeat split; reflexivity.
Qed.

(** X16: a wicket in the second innings (a target is set) ends the game
    with the out flag raised; target, innings, roles and both scores stay
    as they were and the ball is counted. *)
Theorem second_innings_wicket (c : Context) (userMove aiMove t : Z) :
  1 ≤ userMove ≤ 6 → out userMove aiMove = true → target c = Some t →
  let c' := afterChoice out over c userMove aiMove in
  gameState c' = GameOver ∧ isOut c' = true ∧
  target c' = Some t ∧ innings c' = innings c ∧ userBatting c' = userBatting c ∧
  playerScore c' = playerScore c ∧ aiScore c' = aiScore c ∧
  ballsPlayed c' = ballsPlayed c + 1.
Proof.
  intros Hm Hout Ht. unfold afterChoice, makeChoice.
  destruct (Z.ltb_spec userMove 1), (Z.gtb_spec userMove 6); try lia.
  cbn [orb]. change (default 0 (Some aiMove)) with aiMove. rewrite Hout. unfold handlePlayerOut.
  destruct (userBatting c) eqn:Hb;
    [unfold handleBattingPlayerOut|unfold handleBowlingPlayerOut];
    rewrite Ht; cbn; repeat split; done.
Qed.

(** X17: a ball that takes no wicket adds the batting side's own move to
    the batting side's score and nothing to the other; the ball is
    counted, target, innings and roles stay, and the game ends exactly
    when [isGameOver] says so of the new score. *)
Theorem scoring_ball (c : Context) (userMove aiMove : Z) :
  1 ≤ userMove ≤ 6 → out userMove aiMove = false →
  let c' := afterChoice out over c userMove aiMove in
  let newScore := if userBatting c then playerScore c + userMove
                  else aiScore c + aiMove in
  playerScore c' = (if userBatting c then newScore else playerScore c) ∧
  aiScore c' = (if userBatting c then aiScore c else newScore) ∧
  ballsPlayed c' = ballsPlayed c + 1 ∧
  target c' = target c ∧ innings c' = innings c ∧ userBatting c' = userBatting c ∧
  isOut c' = isOut c ∧
  gameState c' = (if over (innings c) newScore (target c) then GameOver
                  else gameState c).
Proof.
  intros Hm Hout. unfold afterChoice, makeChoice.
  destruct (Z.ltb_spec userMove 1), (Z.gtb_spec userMove 6); try lia.
  cbn [orb]. change (default 0 (Some aiMove)) with aiMove. rewrite Hout. unfold updateScores.
  destruct (userBatting c) eqn:Hb;
    destruct (over (innings c) _ (target c)); cbn; rewrite ?Hb; repeat split; done.
Qed.

Lemma act_innings (c : Context) (a : Action) :
  inningsMatchTarget c → inningsMatchTarget (act out over c a).
Proof.
  unfold inningsMatchTarget. intros Hc.
  destruct a as [countdown gesture generated|userMove o generated|b| |choice h1 h2|bat|andOut];
    cbn [act].
  - unfold handleGestureDetected.
    destruct (_ && _); [|exact Hc]. destruct (_ && _); [|exact Hc].
    unfold makeChoice. destruct (_ || _); [exact Hc|].
    destruct (out _ _).
    + unfold handlePlayerOut, handleBattingPlayerOut, handleBowlingPlayerOut.
      revert Hc. destruct (userBatting c), (target c) eqn:Ht; cbn; rewrite ?Ht; done.
    + unfold updateScores.
      destruct (userBatting c); destruct (over _ _ _); cbn; exact Hc.
  - unfold makeChoice. destruct (_ || _); [exact Hc|].
    destruct (out _ _).
    + unfold handlePlayerOut, handleBattingPlayerOut, handleBowlingPlayerOut.
      revert Hc. destruct (userBatting c), (target c) eqn:Ht; cbn; rewrite ?Ht; done.
    + unfold updateScores.
      destruct (userBatting c); destruct (over _ _ _); cbn; exact Hc.
  - exact Hc.
  - reflexivity.
  - unfold chooseToss. destruct (bool_decide _); exact Hc.
  - exact Hc.
  - destruct andOut; exact Hc.
Qed.

Lemma act_target (c : Context) (a : Action) (t : Z) :
  a ≠ ResetGame → target c = Some t → target (act out over c a) = Some t.
Proof.
  intros Ha Ht.
  destruct a as [countdown gesture generated|userMove o generated|b| |choice h1 h2|bat|andOut];
    cbn [act]; try done.
  - unfold handleGestureDetected.
    destruct (_ && _); [|exact Ht]. destruct (_ && _); [|exact Ht].
    unfold makeChoice. destruct (_ || _); [exact Ht|].
    destruct (out _ _).
    + unfold handlePlayerOut, handleBattingPlayerOut, handleBowlingPlayerOut.
      rewrite Ht. destruct (userBatting c); cbn; done.
    + unfold updateScores.
      destruct (userBatting c); destruct (over _ _ _); cbn; exact Ht.
  - unfold makeChoice. destruct (_ || _); [exact Ht|].
    destruct (out _ _).
    + unfold handlePlayerOut, handleBattingPlayerOut, handleBowlingPlayerOut.
      rewrite Ht. destruct (userBatting c); cbn; done.
    + unfold updateScores.
      destruct (userBatting c); destruct (over _ _ _); cbn; exact Ht.
  - unfold chooseToss. destruct (bool_decide _); exact Ht.
  - destruct andOut; exact Ht.
Qed.

(** X18: whatever happens to a fresh game (gestures, direct calls of
    [makeChoice], the toss, starts, resets, the clearing timeouts), the
    second innings is on exactly when a target is set. *)
Theorem innings_track_target (actions : list Action) :
  inningsMatchTarget (play out over actions initialState).
Proof.
  unfold play. generalize initialState, (eq_refl : inningsMatchTarget initialState).
  induction actions as [|a actions IH]; intros c0 Hc0; [exact Hc0|].
  cbn [fold_left]. apply IH. by apply act_innings.
Qed.

(** X19: once set, the target stays what it is through every action but
    [resetGame]. *)
Theorem target_kept (c : Context) (a : Action) (t : Z) :
  a ≠ ResetGame → target c = Some t → target (act out over c a) = Some t.
Proof. apply act_target. Qed.

End GameFacts.

Section GameWitnesses.
Import Game.

Lemma first_innings_wicket_witness :
  let c' := afterChoice sameNumber chaseWon userBats7 3 3 in
  target c' = Some 8 ∧ innings c' = 2 ∧ ballsPlayed c' = 0 ∧
  userBatting c' = false ∧ gameState c' = Bowling ∧ isOut c' = false ∧
  playerScore c' = 7 ∧ aiScore c' = 0 ∧
  playerChoice c' = Some 3 ∧ aiChoice c' = Some 3.
Proof.
  apply (first_innings_wicket sameNumber chaseWon userBats7 3 3);
    [lia|reflexivity|reflexivity].
Defined.

Lemma second_innings_wicket_witness :
  let c' := afterChoice sameNumber chaseWon aiChases8 2 2 in
  gameState c' = GameOver ∧ isOut c' = true ∧
  target c' = Some 8 ∧ innings c' = 2 ∧ userBatting c' = false ∧
  playerScore c' = 7 ∧ aiScore c' = 5 ∧ ballsPlayed c' = 4.
Proof.
  apply (second_innings_wicket sameNumber chaseWon aiChases8 2 2 8);
    [lia|reflexivity|reflexivity].
Defined.

Lemma scoring_ball_witness :
  let c' := afterChoice sameNumber chaseWon aiChases8 2 4 in
  playerScore c' = 7 ∧ aiScore c' = 9 ∧ ballsPlayed c' = 4 ∧
  target c' = Some 8 ∧ innings c' = 2 ∧ userBatting c' = false ∧
  isOut c' = false ∧ gameState c' = GameOver.
Proof.
  apply (scoring_ball sameNumber chaseWon aiChases8 2 4); [lia|reflexivity].
Defined.

Lemma target_kept_witness :
  target (act sameNumber chaseWon aiChases8 (Gesture None 2 4)) = Some 8.
Proof.
  apply (target_kept sameNumber chaseWon aiChases8 (Gesture None 2 4) 8);
    [discriminate|reflexivity].
Defined.

End GameWitnesses.

(** ** The further properties at work *)

Section MoreWitnesses.
Import Classifier Service Loop Detector Scenario.

Lemma onHands_total (now : Z) (hs : list (list Landmark)) (s : State) :
  is_Some (onHands now hs s).
Proof.
  revert s. induction hs as [|l hs IH]; intros s; [by eexists|].
  cbn [onHands].
  assert (H1 : is_Some (onHand now l s)).
  { unfold onHand. destruct (isCalibrating s); [by eexists|].
    destruct (gestureCallback s); [|by eexists].
    destruct (detectImprovedGesture_total (Some l)) as [g ->]. cbn.
    destruct (g >? 0); by eexists. }
  destruct H1 as [[s1 e1] ->]. cbn.
  destruct (IH s1) as [[s2 e2] ->]. cbn. by eexists.
Qed.

(** No result of the pose model makes [onResults] throw. *)
Lemma onResults_total (now : Z) (r : option (list (list Landmark))) (s : State) :
  is_Some (onResults now r s).
Proof.
  rewrite onResults_unfold. destruct (negb (canvasReady s)); [by eexists|].
  destruct (handsDetected r); [apply onHands_total|by eexists].
Qed.

Lemma classifier_reads_tips_and_joints_witness :
  (21 ≤ length Hands.oneFinger)%nat ∧ (21 ≤ length oneFingerMoved)%nat ∧
  Hands.oneFinger ≠ oneFingerMoved ∧
  detectImprovedGesture (Some Hands.oneFinger)
    = detectImprovedGesture (Some oneFingerMoved).
Proof.
  split; [vm_compute; lia|]. split; [vm_compute; lia|].
  split; [intros H; apply (f_equal length) in H; vm_compute in H; discriminate|].
  apply (classifier_reads_tips_and_joints Hands.oneFinger oneFingerMoved);
    [vm_compute; lia|vm_compute; lia|].
  unfold keyIndices.
  repeat (constructor; [split; vm_compute; reflexivity|]). constructor.
Defined.

Lemma thumb_only_matters_alone_witness :
  gestureOfFlags (mkFlags true true true false false) = 2 ∧
  gestureOfFlags (mkFlags true true true false false)
    = gestureOfFlags (mkFlags false true true false false).
Proof.
  apply (thumb_only_matters_alone (mkFlags true true true false false)).
  vm_compute. discriminate.
Defined.

Lemma muted_frame_witness :
  ∃ s', onResults T0 (Some [Hands.twoFingers]) fresh = Some (s', []) ∧
    gestureConfidence s' = gestureConfidence fresh ∧
    lastGestureDetected s' = lastGestureDetected fresh.
Proof.
  apply (muted_frame T0 (Some [Hands.twoFingers]) fresh). by left.
Defined.

Lemma emitted_codes_witness :
  ∃ s' tr, run changeThenHold T0 fresh = Some (s', tr) ∧
    ∀ t g, (t, g) ∈ gestureEvents tr → g ∈ [1; 2; 3; 5; 6].
Proof.
  destruct (run changeThenHold T0 fresh) as [[s' tr]|] eqn:E;
    [|vm_compute in E; discriminate].
  exists s', tr. split; [reflexivity|].
  exact (emitted_codes changeThenHold T0 fresh s' tr E).
Defined.

Lemma fires_on_third_frame_witness :
  ∃ s tr, run (boot ++ every67 (T0 + 5033) 2 oneFingerFrame) T0 fresh = Some (s, tr) ∧
    fires 1 s = true ∧
    debouncerOk s ∧ ∀ g, fires g s = true → nextStreak g s = 3.
Proof.
  destruct (run (boot ++ every67 (T0 + 5033) 2 oneFingerFrame) T0 fresh)
    as [[s tr]|] eqn:E; [|vm_compute in E; discriminate].
  assert (Hf : fires 1 s = true).
  { pose proof E as Ec. vm_compute in Ec. injection Ec as <- _.
    vm_compute. reflexivity. }
  exists s, tr. split; [reflexivity|]. split; [exact Hf|].
  exact (fires_on_third_frame (boot ++ every67 (T0 + 5033) 2 oneFingerFrame)
           T0 s tr E).
Defined.

Lemma cooldown_in_isolation_witness :
  ∃ s1 ev s2 tr,
    onResults (T0 + 5234) (Some [Hands.oneFinger]) primed = Some (s1, ev) ∧
    run [(T0 + 5301, oneFingerFrame); (T0 + 5368, emptyFrame)] (T0 + 5234) s1
      = Some (s2, tr) ∧
    gestureEvents tr = [] ∧ lastGestureDetected s2 = 1.
Proof.
  destruct (onResults (T0 + 5234) (Some [Hands.oneFinger]) primed)
    as [[s1 ev]|] eqn:E; [|vm_compute in E; discriminate].
  assert (Hev : GestureEvent 1 ∈ ev).
  { pose proof E as Ec. vm_compute in Ec. injection Ec as _ <-. by left. }
  destruct (cooldown_in_isolation (T0 + 5234) 1 Hands.oneFinger primed s1 ev
              [(T0 + 5301, oneFingerFrame); (T0 + 5368, emptyFrame)])
    as (s2 & tr & Hrun & Hq & Hl); [| exact E | exact Hev | | |].
  - intros t Hin. apply list_elem_of_singleton in Hin as ->. discriminate.
  - intros t i Hin.
    apply elem_of_cons in Hin as [[= -> ->]|Hin];
      [|apply list_elem_of_singleton in Hin as [= -> ->]].
    + split; [vm_compute; reflexivity|]. intros l Hl.
      apply list_elem_of_singleton in Hl as ->. left. vm_compute. reflexivity.
    + split; [vm_compute; reflexivity|]. intros l Hl. by apply elem_of_nil in Hl.
  - cbn. repeat split; vm_compute; discriminate.
  - exists s1, ev, s2, tr. by repeat split.
Defined.

Lemma no_landmarks_timeout_rearmed_witness :
  ∃ s tr s' e,
    run [(T0, Initialize true); (T0 + 100, emptyFrame)] T0 fresh = Some (s, tr) ∧
    onResults (T0 + 200) (Some []) s = Some (s', e) ∧
    ∀ t, t ∈ timers s' → action t = NoLandmarksRestart →
         due t = T0 + 200 + 5000 ∧ handsDetected (Some []) = false ∧
         noLandmarksTimeout s' = Some (tid t).
Proof.
  destruct (run [(T0, Initialize true); (T0 + 100, emptyFrame)] T0 fresh)
    as [[s tr]|] eqn:E; [|vm_compute in E; discriminate].
  destruct (onResults_total (T0 + 200) (Some []) s) as [[s' e] E'].
  exists s, tr, s', e. split; [reflexivity|]. split; [exact E'|].
  exact (no_landmarks_timeout_rearmed _ T0 s tr (T0 + 200) (Some []) s' e E E').
Defined.

Lemma attempts_never_reset_witness :
  ∃ s' tr,
    run [(T0 + 5300, emptyFrame); (T0 + 9000, CameraFrame)] (T0 + 5234)
        (set_cameraStartAttempts 5 primed) = Some (s', tr) ∧
    maxCameraAttempts ≤ cameraStartAttempts (set_cameraStartAttempts 5 primed) ∧
    cameraStartAttempts (set_cameraStartAttempts 5 primed) ≤ cameraStartAttempts s' ∧
    cameraStartError (T0 + 9000) s' = s'.
Proof.
  destruct (run [(T0 + 5300, emptyFrame); (T0 + 9000, CameraFrame)] (T0 + 5234)
              (set_cameraStartAttempts 5 primed)) as [[s' tr]|] eqn:E;
    [|vm_compute in E; discriminate].
  assert (Hmax : maxCameraAttempts ≤ cameraStartAttempts (set_cameraStartAttempts 5 primed)).
  { vm_compute. discriminate. }
  destruct (attempts_never_reset _ (T0 + 5234) (set_cameraStartAttempts 5 primed)
              s' tr (T0 + 9000) E) as [Hmono Hno].
  exists s', tr. split; [reflexivity|]. split; [exact Hmax|].
  split; [exact Hmono|exact (Hno Hmax)].
Defined.

Lemma stopCamera_cancels_watchdogs_only_witness :
  noLandmarksTracked primed ∧
  timers (stopCamera primed).1 = [] ∧ (stopCamera primed).2 = [CameraStop].
Proof.
  assert (H : noLandmarksTracked primed).
  { intros t Hin Ha. apply list_elem_of_singleton in Hin as ->. discriminate. }
  split; [exact H|].
  destruct (stopCamera_cancels_watchdogs_only primed H) as (_ & _ & He & _).
  split; [reflexivity|exact He].
Defined.

Lemma slow_camera_loses_nothing_witness :
  (onFrames (burst (T0 + 5234) 67 30) primed).2 = burst (T0 + 5234) 67 30.
Proof.
  apply (slow_camera_loses_nothing (burst (T0 + 5234) 67 30) primed);
    [reflexivity|reflexivity|].
  vm_compute. repeat split; discriminate.
Defined.

Lemma locked_gate_passes_nothing_witness :
  feed [Report 1000000 1 false; Report 1000600 2 false] mounted = (mounted, []).
Proof.
  apply (locked_gate_passes_nothing _ mounted); [reflexivity|].
  intros e He. apply elem_of_cons in He as [->|He]; [by eexists _, _, _|].
  apply list_elem_of_singleton in He as ->. by eexists _, _, _.
Defined.

Lemma rejected_reports_keep_window_witness :
  throttledGestureDetection false 1000501 2
    (feed [Report 1000100 1 false; Report 1000300 0 false; Report 1000400 3 true]
       (mkGate 1000000 false true)).1
    = (mkGate 1000501 false true, [mkDelivery 1000701 2]).
Proof.
  apply (rejected_reports_keep_window
           [Report 1000100 1 false; Report 1000300 0 false; Report 1000400 3 true]
           (mkGate 1000000 false true) 1000501 2);
    [reflexivity|reflexivity|cbn; lia|lia].
Defined.

Lemma third_frame_after_reset_witness :
  fires 2 (cooldownReset primed) = false ∧
  fires 2 (processGestureWithConfidence (T0 + 6239) 2 (cooldownReset primed)).1 = false ∧
  fires 2 (processGestureWithConfidence (T0 + 6306) 2
             (processGestureWithConfidence (T0 + 6239) 2 (cooldownReset primed)).1).1
    = true.
Proof.
  apply (third_frame_after_reset (T0 + 6239) (T0 + 6306) 2 primed). discriminate.
Defined.

End MoreWitnesses.
